(** * AI mock service: the anomaly detection engine

    A shallow embedding of [services/ai-mock/main.py]: the rule table
    [DETECTION_PATTERNS], the evaluator [detect_anomalies] and the response
    assembly of [analyze_document], together with the parts of the Python
    runtime they rest on ([str.lower], [str.upper], the [re] module on the
    pattern syntax the table uses, [dict] lookups on the request context).

    Python strings are sequences of Unicode code points: a [str] is a list
    of code points, each an [N].  Literals are written as UTF-8 Rocq strings
    and decoded by [utf8]. *)

From Stdlib Require Import NArith ZArith QArith String Ascii List Bool Lia.
From stdpp Require Import base option list strings gmap.

#[local] Open Scope N_scope.
#[local] Open Scope list_scope.

(** ** Strings *)

Abbreviation str := (list N).

(** Decoding of a UTF-8 byte sequence (one to four bytes per code point). *)
Fixpoint utf8_decode (bs : list N) {struct bs} : str :=
  let cont b := N.land b 0x3F in
  match bs with
  | [] => []
  | b0 :: r0 =>
    if b0 <? 0x80 then b0 :: utf8_decode r0 else
    match r0 with
    | [] => [0xFFFD]
    | b1 :: r1 =>
      if b0 <? 0xE0 then
        N.lor (N.shiftl (N.land b0 0x1F) 6) (cont b1) :: utf8_decode r1 else
      match r1 with
      | [] => [0xFFFD]
      | b2 :: r2 =>
        if b0 <? 0xF0 then
          N.lor (N.shiftl (N.land b0 0x0F) 12)
                (N.lor (N.shiftl (cont b1) 6) (cont b2)) :: utf8_decode r2 else
        match r2 with
        | [] => [0xFFFD]
        | b3 :: r3 =>
          N.lor (N.shiftl (N.land b0 0x07) 18)
                (N.lor (N.shiftl (cont b1) 12)
                       (N.lor (N.shiftl (cont b2) 6) (cont b3))) :: utf8_decode r3
        end
      end
    end
  end.

(** A string literal of this file as the Python [str] it denotes. *)
Definition utf8 (s : string) : str :=
  utf8_decode (map N_of_ascii (list_ascii_of_string s)).

(** [needle in hay] for two [str] values. *)
Fixpoint text_prefix (p s : str) : bool :=
  match p, s with
  | [], _ => true
  | _ :: _, [] => false
  | a :: p', b :: s' => (a =? b) && text_prefix p' s'
  end.

Fixpoint text_in (needle hay : str) : bool :=
  text_prefix needle hay ||
  match hay with
  | [] => false
  | _ :: hay' => text_in needle hay'
  end.

(** ** Case conversion of [str]

    [str.lower] and [str.upper] are built into the interpreter; their tables
    are the ones of Unicode 14.0.0 as CPython 3.11 carries them.  [lower]
    follows [do_lower] of [unicodeobject.c]: every code point is replaced by
    its full lowercase mapping, except capital sigma, whose form depends on
    the Final_Sigma context. *)

Module Unicode.

(** Simple lowercase mappings, run-length encoded: [(lo, hi, step, target)] sends
    every code point [lo + k * step <= hi] to [target + k * step]. *)
Definition lower_table : list (N * N * N * N) :=
  [
   (0x41,0x5A,1,0x61); (0xC0,0xD6,1,0xE0); (0xD8,0xDE,1,0xF8); (0x100,0x12E,2,0x101);
   (0x132,0x136,2,0x133); (0x139,0x147,2,0x13A); (0x14A,0x176,2,0x14B); (0x178,0x178,1,0xFF);
   (0x179,0x17D,2,0x17A); (0x181,0x181,1,0x253); (0x182,0x184,2,0x183); (0x186,0x186,1,0x254);
   (0x187,0x187,1,0x188); (0x189,0x18A,1,0x256); (0x18B,0x18B,1,0x18C); (0x18E,0x18E,1,0x1DD);
   (0x18F,0x18F,1,0x259); (0x190,0x190,1,0x25B); (0x191,0x191,1,0x192); (0x193,0x193,1,0x260);
   (0x194,0x194,1,0x263); (0x196,0x196,1,0x269); (0x197,0x197,1,0x268); (0x198,0x198,1,0x199);
   (0x19C,0x19C,1,0x26F); (0x19D,0x19D,1,0x272); (0x19F,0x19F,1,0x275); (0x1A0,0x1A4,2,0x1A1);
   (0x1A6,0x1A6,1,0x280); (0x1A7,0x1A7,1,0x1A8); (0x1A9,0x1A9,1,0x283); (0x1AC,0x1AC,1,0x1AD);
   (0x1AE,0x1AE,1,0x288); (0x1AF,0x1AF,1,0x1B0); (0x1B1,0x1B2,1,0x28A); (0x1B3,0x1B5,2,0x1B4);
   (0x1B7,0x1B7,1,0x292); (0x1B8,0x1B8,1,0x1B9); (0x1BC,0x1BC,1,0x1BD); (0x1C4,0x1C4,1,0x1C6);
   (0x1C5,0x1C5,1,0x1C6); (0x1C7,0x1C7,1,0x1C9); (0x1C8,0x1C8,1,0x1C9); (0x1CA,0x1CA,1,0x1CC);
   (0x1CB,0x1DB,2,0x1CC); (0x1DE,0x1EE,2,0x1DF); (0x1F1,0x1F1,1,0x1F3); (0x1F2,0x1F4,2,0x1F3);
   (0x1F6,0x1F6,1,0x195); (0x1F7,0x1F7,1,0x1BF); (0x1F8,0x21E,2,0x1F9); (0x220,0x220,1,0x19E);
   (0x222,0x232,2,0x223); (0x23A,0x23A,1,0x2C65); (0x23B,0x23B,1,0x23C); (0x23D,0x23D,1,0x19A);
   (0x23E,0x23E,1,0x2C66); (0x241,0x241,1,0x242); (0x243,0x243,1,0x180); (0x244,0x244,1,0x289);
   (0x245,0x245,1,0x28C); (0x246,0x24E,2,0x247); (0x370,0x372,2,0x371); (0x376,0x376,1,0x377);
   (0x37F,0x37F,1,0x3F3); (0x386,0x386,1,0x3AC); (0x388,0x38A,1,0x3AD); (0x38C,0x38C,1,0x3CC);
   (0x38E,0x38F,1,0x3CD); (0x391,0x3A1,1,0x3B1); (0x3A3,0x3AB,1,0x3C3); (0x3CF,0x3CF,1,0x3D7);
   (0x3D8,0x3EE,2,0x3D9); (0x3F4,0x3F4,1,0x3B8); (0x3F7,0x3F7,1,0x3F8); (0x3F9,0x3F9,1,0x3F2);
   (0x3FA,0x3FA,1,0x3FB); (0x3FD,0x3FF,1,0x37B); (0x400,0x40F,1,0x450); (0x410,0x42F,1,0x430);
   (0x460,0x480,2,0x461); (0x48A,0x4BE,2,0x48B); (0x4C0,0x4C0,1,0x4CF); (0x4C1,0x4CD,2,0x4C2);
   (0x4D0,0x52E,2,0x4D1); (0x531,0x556,1,0x561); (0x10A0,0x10C5,1,0x2D00); (0x10C7,0x10C7,1,0x2D27);
   (0x10CD,0x10CD,1,0x2D2D); (0x13A0,0x13EF,1,0xAB70); (0x13F0,0x13F5,1,0x13F8); (0x1C90,0x1CBA,1,0x10D0);
   (0x1CBD,0x1CBF,1,0x10FD); (0x1E00,0x1E94,2,0x1E01); (0x1E9E,0x1E9E,1,0xDF); (0x1EA0,0x1EFE,2,0x1EA1);
   (0x1F08,0x1F0F,1,0x1F00); (0x1F18,0x1F1D,1,0x1F10); (0x1F28,0x1F2F,1,0x1F20); (0x1F38,0x1F3F,1,0x1F30);
   (0x1F48,0x1F4D,1,0x1F40); (0x1F59,0x1F5F,2,0x1F51); (0x1F68,0x1F6F,1,0x1F60); (0x1F88,0x1F8F,1,0x1F80);
   (0x1F98,0x1F9F,1,0x1F90); (0x1FA8,0x1FAF,1,0x1FA0); (0x1FB8,0x1FB9,1,0x1FB0); (0x1FBA,0x1FBB,1,0x1F70);
   (0x1FBC,0x1FBC,1,0x1FB3); (0x1FC8,0x1FCB,1,0x1F72); (0x1FCC,0x1FCC,1,0x1FC3); (0x1FD8,0x1FD9,1,0x1FD0);
   (0x1FDA,0x1FDB,1,0x1F76); (0x1FE8,0x1FE9,1,0x1FE0); (0x1FEA,0x1FEB,1,0x1F7A); (0x1FEC,0x1FEC,1,0x1FE5);
   (0x1FF8,0x1FF9,1,0x1F78); (0x1FFA,0x1FFB,1,0x1F7C); (0x1FFC,0x1FFC,1,0x1FF3); (0x2126,0x2126,1,0x3C9);
   (0x212A,0x212A,1,0x6B); (0x212B,0x212B,1,0xE5); (0x2132,0x2132,1,0x214E); (0x2160,0x216F,1,0x2170);
   (0x2183,0x2183,1,0x2184); (0x24B6,0x24CF,1,0x24D0); (0x2C00,0x2C2F,1,0x2C30); (0x2C60,0x2C60,1,0x2C61);
   (0x2C62,0x2C62,1,0x26B); (0x2C63,0x2C63,1,0x1D7D); (0x2C64,0x2C64,1,0x27D); (0x2C67,0x2C6B,2,0x2C68);
   (0x2C6D,0x2C6D,1,0x251); (0x2C6E,0x2C6E,1,0x271); (0x2C6F,0x2C6F,1,0x250); (0x2C70,0x2C70,1,0x252);
   (0x2C72,0x2C72,1,0x2C73); (0x2C75,0x2C75,1,0x2C76); (0x2C7E,0x2C7F,1,0x23F); (0x2C80,0x2CE2,2,0x2C81);
   (0x2CEB,0x2CED,2,0x2CEC); (0x2CF2,0x2CF2,1,0x2CF3); (0xA640,0xA66C,2,0xA641); (0xA680,0xA69A,2,0xA681);
   (0xA722,0xA72E,2,0xA723); (0xA732,0xA76E,2,0xA733); (0xA779,0xA77B,2,0xA77A); (0xA77D,0xA77D,1,0x1D79);
   (0xA77E,0xA786,2,0xA77F); (0xA78B,0xA78B,1,0xA78C); (0xA78D,0xA78D,1,0x265); (0xA790,0xA792,2,0xA791);
   (0xA796,0xA7A8,2,0xA797); (0xA7AA,0xA7AA,1,0x266); (0xA7AB,0xA7AB,1,0x25C); (0xA7AC,0xA7AC,1,0x261);
   (0xA7AD,0xA7AD,1,0x26C); (0xA7AE,0xA7AE,1,0x26A); (0xA7B0,0xA7B0,1,0x29E); (0xA7B1,0xA7B1,1,0x287);
   (0xA7B2,0xA7B2,1,0x29D); (0xA7B3,0xA7B3,1,0xAB53); (0xA7B4,0xA7C2,2,0xA7B5); (0xA7C4,0xA7C4,1,0xA794);
   (0xA7C5,0xA7C5,1,0x282); (0xA7C6,0xA7C6,1,0x1D8E); (0xA7C7,0xA7C9,2,0xA7C8); (0xA7D0,0xA7D0,1,0xA7D1);
   (0xA7D6,0xA7D8,2,0xA7D7); (0xA7F5,0xA7F5,1,0xA7F6); (0xFF21,0xFF3A,1,0xFF41); (0x10400,0x10427,1,0x10428);
   (0x104B0,0x104D3,1,0x104D8); (0x10570,0x1057A,1,0x10597); (0x1057C,0x1058A,1,0x105A3); (0x1058C,0x10592,1,0x105B3);
   (0x10594,0x10595,1,0x105BB); (0x10C80,0x10CB2,1,0x10CC0); (0x118A0,0x118BF,1,0x118C0); (0x16E40,0x16E5F,1,0x16E60);
   (0x1E900,0x1E921,1,0x1E922)
  ]%N.

(** Code points whose lowercase form is longer than one code point. *)
Definition lower_special : list (N * list N) :=
  [
   (0x130,[0x69; 0x307])
  ]%N.

(** Simple uppercase mappings, encoded as [lower_table] is. *)
Definition upper_table : list (N * N * N * N) :=
  [
   (0x61,0x7A,1,0x41); (0xB5,0xB5,1,0x39C); (0xE0,0xF6,1,0xC0); (0xF8,0xFE,1,0xD8);
   (0xFF,0xFF,1,0x178); (0x101,0x12F,2,0x100); (0x131,0x131,1,0x49); (0x133,0x137,2,0x132);
   (0x13A,0x148,2,0x139); (0x14B,0x177,2,0x14A); (0x17A,0x17E,2,0x179); (0x17F,0x17F,1,0x53);
   (0x180,0x180,1,0x243); (0x183,0x185,2,0x182); (0x188,0x188,1,0x187); (0x18C,0x18C,1,0x18B);
   (0x192,0x192,1,0x191); (0x195,0x195,1,0x1F6); (0x199,0x199,1,0x198); (0x19A,0x19A,1,0x23D);
   (0x19E,0x19E,1,0x220); (0x1A1,0x1A5,2,0x1A0); (0x1A8,0x1A8,1,0x1A7); (0x1AD,0x1AD,1,0x1AC);
   (0x1B0,0x1B0,1,0x1AF); (0x1B4,0x1B6,2,0x1B3); (0x1B9,0x1B9,1,0x1B8); (0x1BD,0x1BD,1,0x1BC);
   (0x1BF,0x1BF,1,0x1F7); (0x1C5,0x1C5,1,0x1C4); (0x1C6,0x1C6,1,0x1C4); (0x1C8,0x1C8,1,0x1C7);
   (0x1C9,0x1C9,1,0x1C7); (0x1CB,0x1CB,1,0x1CA); (0x1CC,0x1CC,1,0x1CA); (0x1CE,0x1DC,2,0x1CD);
   (0x1DD,0x1DD,1,0x18E); (0x1DF,0x1EF,2,0x1DE); (0x1F2,0x1F2,1,0x1F1); (0x1F3,0x1F3,1,0x1F1);
   (0x1F5,0x1F5,1,0x1F4); (0x1F9,0x21F,2,0x1F8); (0x223,0x233,2,0x222); (0x23C,0x23C,1,0x23B);
   (0x23F,0x240,1,0x2C7E); (0x242,0x242,1,0x241); (0x247,0x24F,2,0x246); (0x250,0x250,1,0x2C6F);
   (0x251,0x251,1,0x2C6D); (0x252,0x252,1,0x2C70); (0x253,0x253,1,0x181); (0x254,0x254,1,0x186);
   (0x256,0x257,1,0x189); (0x259,0x259,1,0x18F); (0x25B,0x25B,1,0x190); (0x25C,0x25C,1,0xA7AB);
   (0x260,0x260,1,0x193); (0x261,0x261,1,0xA7AC); (0x263,0x263,1,0x194); (0x265,0x265,1,0xA78D);
   (0x266,0x266,1,0xA7AA); (0x268,0x268,1,0x197); (0x269,0x269,1,0x196); (0x26A,0x26A,1,0xA7AE);
   (0x26B,0x26B,1,0x2C62); (0x26C,0x26C,1,0xA7AD); (0x26F,0x26F,1,0x19C); (0x271,0x271,1,0x2C6E);
   (0x272,0x272,1,0x19D); (0x275,0x275,1,0x19F); (0x27D,0x27D,1,0x2C64); (0x280,0x280,1,0x1A6);
   (0x282,0x282,1,0xA7C5); (0x283,0x283,1,0x1A9); (0x287,0x287,1,0xA7B1); (0x288,0x288,1,0x1AE);
   (0x289,0x289,1,0x244); (0x28A,0x28B,1,0x1B1); (0x28C,0x28C,1,0x245); (0x292,0x292,1,0x1B7);
   (0x29D,0x29D,1,0xA7B2); (0x29E,0x29E,1,0xA7B0); (0x345,0x345,1,0x399); (0x371,0x373,2,0x370);
   (0x377,0x377,1,0x376); (0x37B,0x37D,1,0x3FD); (0x3AC,0x3AC,1,0x386); (0x3AD,0x3AF,1,0x388);
   (0x3B1,0x3C1,1,0x391); (0x3C2,0x3C2,1,0x3A3); (0x3C3,0x3CB,1,0x3A3); (0x3CC,0x3CC,1,0x38C);
   (0x3CD,0x3CE,1,0x38E); (0x3D0,0x3D0,1,0x392); (0x3D1,0x3D1,1,0x398); (0x3D5,0x3D5,1,0x3A6);
   (0x3D6,0x3D6,1,0x3A0); (0x3D7,0x3D7,1,0x3CF); (0x3D9,0x3EF,2,0x3D8); (0x3F0,0x3F0,1,0x39A);
   (0x3F1,0x3F1,1,0x3A1); (0x3F2,0x3F2,1,0x3F9); (0x3F3,0x3F3,1,0x37F); (0x3F5,0x3F5,1,0x395);
   (0x3F8,0x3F8,1,0x3F7); (0x3FB,0x3FB,1,0x3FA); (0x430,0x44F,1,0x410); (0x450,0x45F,1,0x400);
   (0x461,0x481,2,0x460); (0x48B,0x4BF,2,0x48A); (0x4C2,0x4CE,2,0x4C1); (0x4CF,0x4CF,1,0x4C0);
   (0x4D1,0x52F,2,0x4D0); (0x561,0x586,1,0x531); (0x10D0,0x10FA,1,0x1C90); (0x10FD,0x10FF,1,0x1CBD);
   (0x13F8,0x13FD,1,0x13F0); (0x1C80,0x1C80,1,0x412); (0x1C81,0x1C81,1,0x414); (0x1C82,0x1C82,1,0x41E);
   (0x1C83,0x1C84,1,0x421); (0x1C85,0x1C85,1,0x422); (0x1C86,0x1C86,1,0x42A); (0x1C87,0x1C87,1,0x462);
   (0x1C88,0x1C88,1,0xA64A); (0x1D79,0x1D79,1,0xA77D); (0x1D7D,0x1D7D,1,0x2C63); (0x1D8E,0x1D8E,1,0xA7C6);
   (0x1E01,0x1E95,2,0x1E00); (0x1E9B,0x1E9B,1,0x1E60); (0x1EA1,0x1EFF,2,0x1EA0); (0x1F00,0x1F07,1,0x1F08);
   (0x1F10,0x1F15,1,0x1F18); (0x1F20,0x1F27,1,0x1F28); (0x1F30,0x1F37,1,0x1F38); (0x1F40,0x1F45,1,0x1F48);
   (0x1F51,0x1F57,2,0x1F59); (0x1F60,0x1F67,1,0x1F68); (0x1F70,0x1F71,1,0x1FBA); (0x1F72,0x1F75,1,0x1FC8);
   (0x1F76,0x1F77,1,0x1FDA); (0x1F78,0x1F79,1,0x1FF8); (0x1F7A,0x1F7B,1,0x1FEA); (0x1F7C,0x1F7D,1,0x1FFA);
   (0x1FB0,0x1FB1,1,0x1FB8); (0x1FBE,0x1FBE,1,0x399); (0x1FD0,0x1FD1,1,0x1FD8); (0x1FE0,0x1FE1,1,0x1FE8);
   (0x1FE5,0x1FE5,1,0x1FEC); (0x214E,0x214E,1,0x2132); (0x2170,0x217F,1,0x2160); (0x2184,0x2184,1,0x2183);
   (0x24D0,0x24E9,1,0x24B6); (0x2C30,0x2C5F,1,0x2C00); (0x2C61,0x2C61,1,0x2C60); (0x2C65,0x2C65,1,0x23A);
   (0x2C66,0x2C66,1,0x23E); (0x2C68,0x2C6C,2,0x2C67); (0x2C73,0x2C73,1,0x2C72); (0x2C76,0x2C76,1,0x2C75);
   (0x2C81,0x2CE3,2,0x2C80); (0x2CEC,0x2CEE,2,0x2CEB); (0x2CF3,0x2CF3,1,0x2CF2); (0x2D00,0x2D25,1,0x10A0);
   (0x2D27,0x2D27,1,0x10C7); (0x2D2D,0x2D2D,1,0x10CD); (0xA641,0xA66D,2,0xA640); (0xA681,0xA69B,2,0xA680);
   (0xA723,0xA72F,2,0xA722); (0xA733,0xA76F,2,0xA732); (0xA77A,0xA77C,2,0xA779); (0xA77F,0xA787,2,0xA77E);
   (0xA78C,0xA78C,1,0xA78B); (0xA791,0xA793,2,0xA790); (0xA794,0xA794,1,0xA7C4); (0xA797,0xA7A9,2,0xA796);
   (0xA7B5,0xA7C3,2,0xA7B4); (0xA7C8,0xA7CA,2,0xA7C7); (0xA7D1,0xA7D1,1,0xA7D0); (0xA7D7,0xA7D9,2,0xA7D6);
   (0xA7F6,0xA7F6,1,0xA7F5); (0xAB53,0xAB53,1,0xA7B3); (0xAB70,0xABBF,1,0x13A0); (0xFF41,0xFF5A,1,0xFF21);
   (0x10428,0x1044F,1,0x10400); (0x104D8,0x104FB,1,0x104B0); (0x10597,0x105A1,1,0x10570); (0x105A3,0x105B1,1,0x1057C);
   (0x105B3,0x105B9,1,0x1058C); (0x105BB,0x105BC,1,0x10594); (0x10CC0,0x10CF2,1,0x10C80); (0x118C0,0x118DF,1,0x118A0);
   (0x16E60,0x16E7F,1,0x16E40); (0x1E922,0x1E943,1,0x1E900)
  ]%N.

(** Code points whose uppercase form is longer than one code point. *)
Definition upper_special : list (N * list N) :=
  [
   (0xDF,[0x53; 0x53]); (0x149,[0x2BC; 0x4E]); (0x1F0,[0x4A; 0x30C]);
   (0x390,[0x399; 0x308; 0x301]); (0x3B0,[0x3A5; 0x308; 0x301]); (0x587,[0x535; 0x552]);
   (0x1E96,[0x48; 0x331]); (0x1E97,[0x54; 0x308]); (0x1E98,[0x57; 0x30A]);
   (0x1E99,[0x59; 0x30A]); (0x1E9A,[0x41; 0x2BE]); (0x1F50,[0x3A5; 0x313]);
   (0x1F52,[0x3A5; 0x313; 0x300]); (0x1F54,[0x3A5; 0x313; 0x301]); (0x1F56,[0x3A5; 0x313; 0x342]);
   (0x1F80,[0x1F08; 0x399]); (0x1F81,[0x1F09; 0x399]); (0x1F82,[0x1F0A; 0x399]);
   (0x1F83,[0x1F0B; 0x399]); (0x1F84,[0x1F0C; 0x399]); (0x1F85,[0x1F0D; 0x399]);
   (0x1F86,[0x1F0E; 0x399]); (0x1F87,[0x1F0F; 0x399]); (0x1F88,[0x1F08; 0x399]);
   (0x1F89,[0x1F09; 0x399]); (0x1F8A,[0x1F0A; 0x399]); (0x1F8B,[0x1F0B; 0x399]);
   (0x1F8C,[0x1F0C; 0x399]); (0x1F8D,[0x1F0D; 0x399]); (0x1F8E,[0x1F0E; 0x399]);
   (0x1F8F,[0x1F0F; 0x399]); (0x1F90,[0x1F28; 0x399]); (0x1F91,[0x1F29; 0x399]);
   (0x1F92,[0x1F2A; 0x399]); (0x1F93,[0x1F2B; 0x399]); (0x1F94,[0x1F2C; 0x399]);
   (0x1F95,[0x1F2D; 0x399]); (0x1F96,[0x1F2E; 0x399]); (0x1F97,[0x1F2F; 0x399]);
   (0x1F98,[0x1F28; 0x399]); (0x1F99,[0x1F29; 0x399]); (0x1F9A,[0x1F2A; 0x399]);
   (0x1F9B,[0x1F2B; 0x399]); (0x1F9C,[0x1F2C; 0x399]); (0x1F9D,[0x1F2D; 0x399]);
   (0x1F9E,[0x1F2E; 0x399]); (0x1F9F,[0x1F2F; 0x399]); (0x1FA0,[0x1F68; 0x399]);
   (0x1FA1,[0x1F69; 0x399]); (0x1FA2,[0x1F6A; 0x399]); (0x1FA3,[0x1F6B; 0x399]);
   (0x1FA4,[0x1F6C; 0x399]); (0x1FA5,[0x1F6D; 0x399]); (0x1FA6,[0x1F6E; 0x399]);
   (0x1FA7,[0x1F6F; 0x399]); (0x1FA8,[0x1F68; 0x399]); (0x1FA9,[0x1F69; 0x399]);
   (0x1FAA,[0x1F6A; 0x399]); (0x1FAB,[0x1F6B; 0x399]); (0x1FAC,[0x1F6C; 0x399]);
   (0x1FAD,[0x1F6D; 0x399]); (0x1FAE,[0x1F6E; 0x399]); (0x1FAF,[0x1F6F; 0x399]);
   (0x1FB2,[0x1FBA; 0x399]); (0x1FB3,[0x391; 0x399]); (0x1FB4,[0x386; 0x399]);
   (0x1FB6,[0x391; 0x342]); (0x1FB7,[0x391; 0x342; 0x399]); (0x1FBC,[0x391; 0x399]);
   (0x1FC2,[0x1FCA; 0x399]); (0x1FC3,[0x397; 0x399]); (0x1FC4,[0x389; 0x399]);
   (0x1FC6,[0x397; 0x342]); (0x1FC7,[0x397; 0x342; 0x399]); (0x1FCC,[0x397; 0x399]);
   (0x1FD2,[0x399; 0x308; 0x300]); (0x1FD3,[0x399; 0x308; 0x301]); (0x1FD6,[0x399; 0x342]);
   (0x1FD7,[0x399; 0x308; 0x342]); (0x1FE2,[0x3A5; 0x308; 0x300]); (0x1FE3,[0x3A5; 0x308; 0x301]);
   (0x1FE4,[0x3A1; 0x313]); (0x1FE6,[0x3A5; 0x342]); (0x1FE7,[0x3A5; 0x308; 0x342]);
   (0x1FF2,[0x1FFA; 0x399]); (0x1FF3,[0x3A9; 0x399]); (0x1FF4,[0x38F; 0x399]);
   (0x1FF6,[0x3A9; 0x342]); (0x1FF7,[0x3A9; 0x342; 0x399]); (0x1FFC,[0x3A9; 0x399]);
   (0xFB00,[0x46; 0x46]); (0xFB01,[0x46; 0x49]); (0xFB02,[0x46; 0x4C]);
   (0xFB03,[0x46; 0x46; 0x49]); (0xFB04,[0x46; 0x46; 0x4C]); (0xFB05,[0x53; 0x54]);
   (0xFB06,[0x53; 0x54]); (0xFB13,[0x544; 0x546]); (0xFB14,[0x544; 0x535]);
   (0xFB15,[0x544; 0x53B]); (0xFB16,[0x54E; 0x546]); (0xFB17,[0x544; 0x53D])
  ]%N.

(** The code points with the Cased property, as inclusive ranges. *)
Definition cased_table : list (N * N) :=
  [
   (0x41,0x5A); (0x61,0x7A); (0xAA,0xAA); (0xB5,0xB5); (0xBA,0xBA); (0xC0,0xD6);
   (0xD8,0xF6); (0xF8,0x1BA); (0x1BC,0x1BF); (0x1C4,0x293); (0x295,0x2B8); (0x2C0,0x2C1);
   (0x2E0,0x2E4); (0x345,0x345); (0x370,0x373); (0x376,0x377); (0x37A,0x37D); (0x37F,0x37F);
   (0x386,0x386); (0x388,0x38A); (0x38C,0x38C); (0x38E,0x3A1); (0x3A3,0x3F5); (0x3F7,0x481);
   (0x48A,0x52F); (0x531,0x556); (0x560,0x588); (0x10A0,0x10C5); (0x10C7,0x10C7); (0x10CD,0x10CD);
   (0x10D0,0x10FA); (0x10FD,0x10FF); (0x13A0,0x13F5); (0x13F8,0x13FD); (0x1C80,0x1C88); (0x1C90,0x1CBA);
   (0x1CBD,0x1CBF); (0x1D00,0x1DBF); (0x1E00,0x1F15); (0x1F18,0x1F1D); (0x1F20,0x1F45); (0x1F48,0x1F4D);
   (0x1F50,0x1F57); (0x1F59,0x1F59); (0x1F5B,0x1F5B); (0x1F5D,0x1F5D); (0x1F5F,0x1F7D); (0x1F80,0x1FB4);
   (0x1FB6,0x1FBC); (0x1FBE,0x1FBE); (0x1FC2,0x1FC4); (0x1FC6,0x1FCC); (0x1FD0,0x1FD3); (0x1FD6,0x1FDB);
   (0x1FE0,0x1FEC); (0x1FF2,0x1FF4); (0x1FF6,0x1FFC); (0x2071,0x2071); (0x207F,0x207F); (0x2090,0x209C);
   (0x2102,0x2102); (0x2107,0x2107); (0x210A,0x2113); (0x2115,0x2115); (0x2119,0x211D); (0x2124,0x2124);
   (0x2126,0x2126); (0x2128,0x2128); (0x212A,0x212D); (0x212F,0x2134); (0x2139,0x2139); (0x213C,0x213F);
   (0x2145,0x2149); (0x214E,0x214E); (0x2160,0x217F); (0x2183,0x2184); (0x24B6,0x24E9); (0x2C00,0x2CE4);
   (0x2CEB,0x2CEE); (0x2CF2,0x2CF3); (0x2D00,0x2D25); (0x2D27,0x2D27); (0x2D2D,0x2D2D); (0xA640,0xA66D);
   (0xA680,0xA69D); (0xA722,0xA787); (0xA78B,0xA78E); (0xA790,0xA7CA); (0xA7D0,0xA7D1); (0xA7D3,0xA7D3);
   (0xA7D5,0xA7D9); (0xA7F5,0xA7F6); (0xA7F8,0xA7FA); (0xAB30,0xAB5A); (0xAB5C,0xAB68); (0xAB70,0xABBF);
   (0xFB00,0xFB06); (0xFB13,0xFB17); (0xFF21,0xFF3A); (0xFF41,0xFF5A); (0x10400,0x1044F); (0x104B0,0x104D3);
   (0x104D8,0x104FB); (0x10570,0x1057A); (0x1057C,0x1058A); (0x1058C,0x10592); (0x10594,0x10595); (0x10597,0x105A1);
   (0x105A3,0x105B1); (0x105B3,0x105B9); (0x105BB,0x105BC); (0x10780,0x10780); (0x10783,0x10785); (0x10787,0x107B0);
   (0x107B2,0x107BA); (0x10C80,0x10CB2); (0x10CC0,0x10CF2); (0x118A0,0x118DF); (0x16E40,0x16E7F); (0x1D400,0x1D454);
   (0x1D456,0x1D49C); (0x1D49E,0x1D49F); (0x1D4A2,0x1D4A2); (0x1D4A5,0x1D4A6); (0x1D4A9,0x1D4AC); (0x1D4AE,0x1D4B9);
   (0x1D4BB,0x1D4BB); (0x1D4BD,0x1D4C3); (0x1D4C5,0x1D505); (0x1D507,0x1D50A); (0x1D50D,0x1D514); (0x1D516,0x1D51C);
   (0x1D51E,0x1D539); (0x1D53B,0x1D53E); (0x1D540,0x1D544); (0x1D546,0x1D546); (0x1D54A,0x1D550); (0x1D552,0x1D6A5);
   (0x1D6A8,0x1D6C0); (0x1D6C2,0x1D6DA); (0x1D6DC,0x1D6FA); (0x1D6FC,0x1D714); (0x1D716,0x1D734); (0x1D736,0x1D74E);
   (0x1D750,0x1D76E); (0x1D770,0x1D788); (0x1D78A,0x1D7A8); (0x1D7AA,0x1D7C2); (0x1D7C4,0x1D7CB); (0x1DF00,0x1DF09);
   (0x1DF0B,0x1DF1E); (0x1E900,0x1E943); (0x1F130,0x1F149); (0x1F150,0x1F169); (0x1F170,0x1F189)
  ]%N.

(** The code points with the Case_Ignorable property, as inclusive ranges. *)
Definition case_ignorable_table : list (N * N) :=
  [
   (0x27,0x27); (0x2E,0x2E); (0x3A,0x3A); (0x5E,0x5E); (0x60,0x60); (0xA8,0xA8);
   (0xAD,0xAD); (0xAF,0xAF); (0xB4,0xB4); (0xB7,0xB8); (0x2B0,0x36F); (0x374,0x375);
   (0x37A,0x37A); (0x384,0x385); (0x387,0x387); (0x483,0x489); (0x559,0x559); (0x55F,0x55F);
   (0x591,0x5BD); (0x5BF,0x5BF); (0x5C1,0x5C2); (0x5C4,0x5C5); (0x5C7,0x5C7); (0x5F4,0x5F4);
   (0x600,0x605); (0x610,0x61A); (0x61C,0x61C); (0x640,0x640); (0x64B,0x65F); (0x670,0x670);
   (0x6D6,0x6DD); (0x6DF,0x6E8); (0x6EA,0x6ED); (0x70F,0x70F); (0x711,0x711); (0x730,0x74A);
   (0x7A6,0x7B0); (0x7EB,0x7F5); (0x7FA,0x7FA); (0x7FD,0x7FD); (0x816,0x82D); (0x859,0x85B);
   (0x888,0x888); (0x890,0x891); (0x898,0x89F); (0x8C9,0x902); (0x93A,0x93A); (0x93C,0x93C);
   (0x941,0x948); (0x94D,0x94D); (0x951,0x957); (0x962,0x963); (0x971,0x971); (0x981,0x981);
   (0x9BC,0x9BC); (0x9C1,0x9C4); (0x9CD,0x9CD); (0x9E2,0x9E3); (0x9FE,0x9FE); (0xA01,0xA02);
   (0xA3C,0xA3C); (0xA41,0xA42); (0xA47,0xA48); (0xA4B,0xA4D); (0xA51,0xA51); (0xA70,0xA71);
   (0xA75,0xA75); (0xA81,0xA82); (0xABC,0xABC); (0xAC1,0xAC5); (0xAC7,0xAC8); (0xACD,0xACD);
   (0xAE2,0xAE3); (0xAFA,0xAFF); (0xB01,0xB01); (0xB3C,0xB3C); (0xB3F,0xB3F); (0xB41,0xB44);
   (0xB4D,0xB4D); (0xB55,0xB56); (0xB62,0xB63); (0xB82,0xB82); (0xBC0,0xBC0); (0xBCD,0xBCD);
   (0xC00,0xC00); (0xC04,0xC04); (0xC3C,0xC3C); (0xC3E,0xC40); (0xC46,0xC48); (0xC4A,0xC4D);
   (0xC55,0xC56); (0xC62,0xC63); (0xC81,0xC81); (0xCBC,0xCBC); (0xCBF,0xCBF); (0xCC6,0xCC6);
   (0xCCC,0xCCD); (0xCE2,0xCE3); (0xD00,0xD01); (0xD3B,0xD3C); (0xD41,0xD44); (0xD4D,0xD4D);
   (0xD62,0xD63); (0xD81,0xD81); (0xDCA,0xDCA); (0xDD2,0xDD4); (0xDD6,0xDD6); (0xE31,0xE31);
   (0xE34,0xE3A); (0xE46,0xE4E); (0xEB1,0xEB1); (0xEB4,0xEBC); (0xEC6,0xEC6); (0xEC8,0xECD);
   (0xF18,0xF19); (0xF35,0xF35); (0xF37,0xF37); (0xF39,0xF39); (0xF71,0xF7E); (0xF80,0xF84);
   (0xF86,0xF87); (0xF8D,0xF97); (0xF99,0xFBC); (0xFC6,0xFC6); (0x102D,0x1030); (0x1032,0x1037);
   (0x1039,0x103A); (0x103D,0x103E); (0x1058,0x1059); (0x105E,0x1060); (0x1071,0x1074); (0x1082,0x1082);
   (0x1085,0x1086); (0x108D,0x108D); (0x109D,0x109D); (0x10FC,0x10FC); (0x135D,0x135F); (0x1712,0x1714);
   (0x1732,0x1733); (0x1752,0x1753); (0x1772,0x1773); (0x17B4,0x17B5); (0x17B7,0x17BD); (0x17C6,0x17C6);
   (0x17C9,0x17D3); (0x17D7,0x17D7); (0x17DD,0x17DD); (0x180B,0x180F); (0x1843,0x1843); (0x1885,0x1886);
   (0x18A9,0x18A9); (0x1920,0x1922); (0x1927,0x1928); (0x1932,0x1932); (0x1939,0x193B); (0x1A17,0x1A18);
   (0x1A1B,0x1A1B); (0x1A56,0x1A56); (0x1A58,0x1A5E); (0x1A60,0x1A60); (0x1A62,0x1A62); (0x1A65,0x1A6C);
   (0x1A73,0x1A7C); (0x1A7F,0x1A7F); (0x1AA7,0x1AA7); (0x1AB0,0x1ACE); (0x1B00,0x1B03); (0x1B34,0x1B34);
   (0x1B36,0x1B3A); (0x1B3C,0x1B3C); (0x1B42,0x1B42); (0x1B6B,0x1B73); (0x1B80,0x1B81); (0x1BA2,0x1BA5);
   (0x1BA8,0x1BA9); (0x1BAB,0x1BAD); (0x1BE6,0x1BE6); (0x1BE8,0x1BE9); (0x1BED,0x1BED); (0x1BEF,0x1BF1);
   (0x1C2C,0x1C33); (0x1C36,0x1C37); (0x1C78,0x1C7D); (0x1CD0,0x1CD2); (0x1CD4,0x1CE0); (0x1CE2,0x1CE8);
   (0x1CED,0x1CED); (0x1CF4,0x1CF4); (0x1CF8,0x1CF9); (0x1D2C,0x1D6A); (0x1D78,0x1D78); (0x1D9B,0x1DFF);
   (0x1FBD,0x1FBD); (0x1FBF,0x1FC1); (0x1FCD,0x1FCF); (0x1FDD,0x1FDF); (0x1FED,0x1FEF); (0x1FFD,0x1FFE);
   (0x200B,0x200F); (0x2018,0x2019); (0x2024,0x2024); (0x2027,0x2027); (0x202A,0x202E); (0x2060,0x2064);
   (0x2066,0x206F); (0x2071,0x2071); (0x207F,0x207F); (0x2090,0x209C); (0x20D0,0x20F0); (0x2C7C,0x2C7D);
   (0x2CEF,0x2CF1); (0x2D6F,0x2D6F); (0x2D7F,0x2D7F); (0x2DE0,0x2DFF); (0x2E2F,0x2E2F); (0x3005,0x3005);
   (0x302A,0x302D); (0x3031,0x3035); (0x303B,0x303B); (0x3099,0x309E); (0x30FC,0x30FE); (0xA015,0xA015);
   (0xA4F8,0xA4FD); (0xA60C,0xA60C); (0xA66F,0xA672); (0xA674,0xA67D); (0xA67F,0xA67F); (0xA69C,0xA69F);
   (0xA6F0,0xA6F1); (0xA700,0xA721); (0xA770,0xA770); (0xA788,0xA78A); (0xA7F2,0xA7F4); (0xA7F8,0xA7F9);
   (0xA802,0xA802); (0xA806,0xA806); (0xA80B,0xA80B); (0xA825,0xA826); (0xA82C,0xA82C); (0xA8C4,0xA8C5);
   (0xA8E0,0xA8F1); (0xA8FF,0xA8FF); (0xA926,0xA92D); (0xA947,0xA951); (0xA980,0xA982); (0xA9B3,0xA9B3);
   (0xA9B6,0xA9B9); (0xA9BC,0xA9BD); (0xA9CF,0xA9CF); (0xA9E5,0xA9E6); (0xAA29,0xAA2E); (0xAA31,0xAA32);
   (0xAA35,0xAA36); (0xAA43,0xAA43); (0xAA4C,0xAA4C); (0xAA70,0xAA70); (0xAA7C,0xAA7C); (0xAAB0,0xAAB0);
   (0xAAB2,0xAAB4); (0xAAB7,0xAAB8); (0xAABE,0xAABF); (0xAAC1,0xAAC1); (0xAADD,0xAADD); (0xAAEC,0xAAED);
   (0xAAF3,0xAAF4); (0xAAF6,0xAAF6); (0xAB5B,0xAB5F); (0xAB69,0xAB6B); (0xABE5,0xABE5); (0xABE8,0xABE8);
   (0xABED,0xABED); (0xFB1E,0xFB1E); (0xFBB2,0xFBC2); (0xFE00,0xFE0F); (0xFE13,0xFE13); (0xFE20,0xFE2F);
   (0xFE52,0xFE52); (0xFE55,0xFE55); (0xFEFF,0xFEFF); (0xFF07,0xFF07); (0xFF0E,0xFF0E); (0xFF1A,0xFF1A);
   (0xFF3E,0xFF3E); (0xFF40,0xFF40); (0xFF70,0xFF70); (0xFF9E,0xFF9F); (0xFFE3,0xFFE3); (0xFFF9,0xFFFB);
   (0x101FD,0x101FD); (0x102E0,0x102E0); (0x10376,0x1037A); (0x10780,0x10785); (0x10787,0x107B0); (0x107B2,0x107BA);
   (0x10A01,0x10A03); (0x10A05,0x10A06); (0x10A0C,0x10A0F); (0x10A38,0x10A3A); (0x10A3F,0x10A3F); (0x10AE5,0x10AE6);
   (0x10D24,0x10D27); (0x10EAB,0x10EAC); (0x10F46,0x10F50); (0x10F82,0x10F85); (0x11001,0x11001); (0x11038,0x11046);
   (0x11070,0x11070); (0x11073,0x11074); (0x1107F,0x11081); (0x110B3,0x110B6); (0x110B9,0x110BA); (0x110BD,0x110BD);
   (0x110C2,0x110C2); (0x110CD,0x110CD); (0x11100,0x11102); (0x11127,0x1112B); (0x1112D,0x11134); (0x11173,0x11173);
   (0x11180,0x11181); (0x111B6,0x111BE); (0x111C9,0x111CC); (0x111CF,0x111CF); (0x1122F,0x11231); (0x11234,0x11234);
   (0x11236,0x11237); (0x1123E,0x1123E); (0x112DF,0x112DF); (0x112E3,0x112EA); (0x11300,0x11301); (0x1133B,0x1133C);
   (0x11340,0x11340); (0x11366,0x1136C); (0x11370,0x11374); (0x11438,0x1143F); (0x11442,0x11444); (0x11446,0x11446);
   (0x1145E,0x1145E); (0x114B3,0x114B8); (0x114BA,0x114BA); (0x114BF,0x114C0); (0x114C2,0x114C3); (0x115B2,0x115B5);
   (0x115BC,0x115BD); (0x115BF,0x115C0); (0x115DC,0x115DD); (0x11633,0x1163A); (0x1163D,0x1163D); (0x1163F,0x11640);
   (0x116AB,0x116AB); (0x116AD,0x116AD); (0x116B0,0x116B5); (0x116B7,0x116B7); (0x1171D,0x1171F); (0x11722,0x11725);
   (0x11727,0x1172B); (0x1182F,0x11837); (0x11839,0x1183A); (0x1193B,0x1193C); (0x1193E,0x1193E); (0x11943,0x11943);
   (0x119D4,0x119D7); (0x119DA,0x119DB); (0x119E0,0x119E0); (0x11A01,0x11A0A); (0x11A33,0x11A38); (0x11A3B,0x11A3E);
   (0x11A47,0x11A47); (0x11A51,0x11A56); (0x11A59,0x11A5B); (0x11A8A,0x11A96); (0x11A98,0x11A99); (0x11C30,0x11C36);
   (0x11C38,0x11C3D); (0x11C3F,0x11C3F); (0x11C92,0x11CA7); (0x11CAA,0x11CB0); (0x11CB2,0x11CB3); (0x11CB5,0x11CB6);
   (0x11D31,0x11D36); (0x11D3A,0x11D3A); (0x11D3C,0x11D3D); (0x11D3F,0x11D45); (0x11D47,0x11D47); (0x11D90,0x11D91);
   (0x11D95,0x11D95); (0x11D97,0x11D97); (0x11EF3,0x11EF4); (0x13430,0x13438); (0x16AF0,0x16AF4); (0x16B30,0x16B36);
   (0x16B40,0x16B43); (0x16F4F,0x16F4F); (0x16F8F,0x16F9F); (0x16FE0,0x16FE1); (0x16FE3,0x16FE4); (0x1AFF0,0x1AFF3);
   (0x1AFF5,0x1AFFB); (0x1AFFD,0x1AFFE); (0x1BC9D,0x1BC9E); (0x1BCA0,0x1BCA3); (0x1CF00,0x1CF2D); (0x1CF30,0x1CF46);
   (0x1D167,0x1D169); (0x1D173,0x1D182); (0x1D185,0x1D18B); (0x1D1AA,0x1D1AD); (0x1D242,0x1D244); (0x1DA00,0x1DA36);
   (0x1DA3B,0x1DA6C); (0x1DA75,0x1DA75); (0x1DA84,0x1DA84); (0x1DA9B,0x1DA9F); (0x1DAA1,0x1DAAF); (0x1E000,0x1E006);
   (0x1E008,0x1E018); (0x1E01B,0x1E021); (0x1E023,0x1E024); (0x1E026,0x1E02A); (0x1E130,0x1E13D); (0x1E2AE,0x1E2AE);
   (0x1E2EC,0x1E2EF); (0x1E8D0,0x1E8D6); (0x1E944,0x1E94B); (0x1F3FB,0x1F3FF); (0xE0001,0xE0001); (0xE0020,0xE007F);
   (0xE0100,0xE01EF)
  ]%N.

(** The code points for which [str.isspace] holds (what [\s] matches in a
    [str] pattern), as inclusive ranges. *)
Definition space_table : list (N * N) :=
  [
   (0x9,0xD); (0x1C,0x20); (0x85,0x85); (0xA0,0xA0); (0x1680,0x1680); (0x2000,0x200A);
   (0x2028,0x2029); (0x202F,0x202F); (0x205F,0x205F); (0x3000,0x3000)
  ]%N.

Definition in_run (c : N) (e : N * N * N * N) : bool :=
  let '(lo, hi, step, _) := e in
  (lo <=? c) && (c <=? hi) && ((c - lo) mod step =? 0).

Definition map_run (c : N) (table : list (N * N * N * N)) : option N :=
  match find (in_run c) table with
  | Some (lo, _, _, target) => Some (target + (c - lo))
  | None => None
  end.

Definition assoc (c : N) (table : list (N * list N)) : option (list N) :=
  match find (fun e => fst e =? c) table with
  | Some e => Some (snd e)
  | None => None
  end.

Definition in_ranges (c : N) (table : list (N * N)) : bool :=
  existsb (fun e => (fst e <=? c) && (c <=? snd e)) table.

Definition to_full (special : list (N * list N))
    (table : list (N * N * N * N)) (c : N) : list N :=
  match assoc c special with
  | Some l => l
  | None =>
    match map_run c table with
    | Some c' => [c']
    | None => [c]
    end
  end.

Definition to_lower_full : N -> list N := to_full lower_special lower_table.
Definition to_upper_full : N -> list N := to_full upper_special upper_table.

Definition is_cased (c : N) : bool := in_ranges c cased_table.
Definition is_case_ignorable (c : N) : bool := in_ranges c case_ignorable_table.
Definition is_space (c : N) : bool := in_ranges c space_table.

Definition CAPITAL_SIGMA : N := 0x3A3.
Definition SMALL_SIGMA : N := 0x3C3.
Definition FINAL_SIGMA : N := 0x3C2.

(** The look-ahead of [handle_capital_sigma]: skipping case-ignorable code
    points, is the next code point cased? *)
Fixpoint cased_follows (rest : str) : bool :=
  match rest with
  | [] => false
  | c :: rest' =>
    if is_case_ignorable c then cased_follows rest' else is_cased c
  end.

(** [lower_from prev s]: [prev] records the look-behind of
    [handle_capital_sigma], that the nearest code point before [s] that is
    not case-ignorable exists and is cased. *)
Fixpoint lower_from (prev : bool) (s : str) : str :=
  match s with
  | [] => []
  | c :: rest =>
    (if c =? CAPITAL_SIGMA
     then [if prev && negb (cased_follows rest) then FINAL_SIGMA else SMALL_SIGMA]
     else to_lower_full c)
    ++ lower_from (if is_case_ignorable c then prev else is_cased c) rest
  end.

End Unicode.

(** [str.lower()] *)
Definition lower (s : str) : str := Unicode.lower_from false s.

(** [str.upper()] *)
Definition upper (s : str) : str := flat_map Unicode.to_upper_full s.

(** ** Regular expressions

    The fragment of the [re] pattern language that the rule table is written
    in: literals, [.], [\s], escaped punctuation, bracketed sets of code
    points and ranges, groups, alternation and the repeats [*], [+], [?].
    [re.search] only ever serves as a truth value in the service, so a
    pattern is modelled by the language it denotes. *)

Module Re.

Inductive charset : Type :=
| CLit (c : N)                      (* a literal code point *)
| CDot                              (* [.]: any code point but a newline *)
| CSpace                            (* [\s] *)
| CSet (items : list (N * N)).      (* [[...]]: inclusive ranges *)

Definition charset_has (cs : charset) (c : N) : bool :=
  match cs with
  | CLit c' => c =? c'
  | CDot => negb (c =? 0x0A)
  | CSpace => Unicode.is_space c
  | CSet items => Unicode.in_ranges c items
  end.

Inductive regex : Type :=
| Zero                              (* matches nothing *)
| Eps                               (* matches the empty string *)
| Chr (cs : charset)
| Seq (r1 r2 : regex)
| Alt (r1 r2 : regex)
| Star (r : regex).

Definition Plus (r : regex) : regex := Seq r (Star r).
Definition Opt (r : regex) : regex := Alt r Eps.

(** *** Parsing a pattern *)

Definition is_alnum (c : N) : bool :=
  ((0x30 <=? c) && (c <=? 0x39)) || ((0x41 <=? c) && (c <=? 0x5A))
  || ((0x61 <=? c) && (c <=? 0x7A)).

(** The items of a set, after the opening bracket, up to the closing one.
    Negated sets and escapes inside a set are outside the fragment. *)
Fixpoint parse_set (acc : list (N * N)) (s : str) {struct s}
    : option (list (N * N) * str) :=
  match s with
  | [] => None
  | c :: s1 =>
    if c =? 0x5D (* ] *) then
      match acc with [] => None | _ => Some (rev acc, s1) end
    else if (c =? 0x5C (* \ *)) || (c =? 0x5E (* ^ *)) || (c =? 0x5B (* [ *)) then None
    else
      match s1 with
      | 0x2D (* - *) :: s2 =>
        match s2 with
        | [] => None
        | hi :: s3 =>
          if (hi =? 0x5D) || (hi =? 0x5C) then None
          else if hi <? c then None
          else parse_set ((c, hi) :: acc) s3
        end
      | _ => parse_set ((c, c) :: acc) s1
      end
  end.

(** A repeat operator after an atom.  Lazy and possessive forms, which
    stack a second operator on the first, are outside the fragment. *)
Definition is_repeat (c : N) : bool :=
  (c =? 0x2A (* * *)) || (c =? 0x2B (* + *)) || (c =? 0x3F (* ? *)).

Definition parse_repeat (a : regex) (s : str) : option (regex * str) :=
  match s with
  | c :: s1 =>
    if is_repeat c then
      match s1 with
      | c' :: _ => if is_repeat c' || (c' =? 0x7B) then None else
          Some (if c =? 0x2A then Star a else if c =? 0x2B then Plus a else Opt a, s1)
      | [] =>
          Some (if c =? 0x2A then Star a else if c =? 0x2B then Plus a else Opt a, s1)
      end
    else if c =? 0x7B (* { *) then None
    else Some (a, s)
  | [] => Some (a, s)
  end.

Definition mk_seq (a r : regex) : regex :=
  match r with Eps => a | _ => Seq a r end.

Fixpoint parse_alt (fuel : nat) (s : str) {struct fuel} : option (regex * str) :=
  match fuel with
  | O => None
  | S fuel' =>
    match parse_seq fuel' s with
    | Some (r, 0x7C (* | *) :: s1) =>
      match parse_alt fuel' s1 with
      | Some (r', s2) => Some (Alt r r', s2)
      | None => None
      end
    | other => other
    end
  end
with parse_seq (fuel : nat) (s : str) {struct fuel} : option (regex * str) :=
  match fuel with
  | O => None
  | S fuel' =>
    match s with
    | [] => Some (Eps, [])
    | c :: _ =>
      if (c =? 0x7C (* | *)) || (c =? 0x29 (* ) *)) then Some (Eps, s) else
      match parse_atom fuel' s with
      | Some (a, s1) =>
        match parse_repeat a s1 with
        | Some (a', s2) =>
          match parse_seq fuel' s2 with
          | Some (r, s3) => Some (mk_seq a' r, s3)
          | None => None
          end
        | None => None
        end
      | None => None
      end
    end
  end
with parse_atom (fuel : nat) (s : str) {struct fuel} : option (regex * str) :=
  match fuel with
  | O => None
  | S fuel' =>
    match s with
    | [] => None
    | c :: s1 =>
      if c =? 0x28 (* ( *) then
        match s1 with
        | 0x3F (* ? *) :: _ => None
        | _ =>
          match parse_alt fuel' s1 with
          | Some (r, 0x29 (* ) *) :: s2) => Some (r, s2)
          | _ => None
          end
        end
      else if c =? 0x5B (* [ *) then
        match parse_set [] s1 with
        | Some (items, s2) => Some (Chr (CSet items), s2)
        | None => None
        end
      else if c =? 0x5C (* \ *) then
        match s1 with
        | [] => None
        | e :: s2 =>
          if e =? 0x73 (* s *) then Some (Chr CSpace, s2)
          else if is_alnum e then None
          else Some (Chr (CLit e), s2)
        end
      else if c =? 0x2E (* . *) then Some (Chr CDot, s1)
      else if is_repeat c || (c =? 0x7B) || (c =? 0x7D) || (c =? 0x5E) || (c =? 0x24)
      then None
      else Some (Chr (CLit c), s1)
    end
  end.

(** [re.compile(pattern)]; [None] stands for [re.error] and for a pattern
    outside the fragment. *)
Definition compile (pattern : str) : option regex :=
  match parse_alt (3 * length pattern + 3) pattern with
  | Some (r, []) => Some r
  | _ => None
  end.

(** *** The language of a pattern *)

Inductive matches : regex -> str -> Prop :=
| m_eps : matches Eps []
| m_chr cs c : charset_has cs c = true -> matches (Chr cs) [c]
| m_seq r1 r2 s1 s2 : matches r1 s1 -> matches r2 s2 -> matches (Seq r1 r2) (s1 ++ s2)
| m_alt_l r1 r2 s : matches r1 s -> matches (Alt r1 r2) s
| m_alt_r r1 r2 s : matches r2 s -> matches (Alt r1 r2) s
| m_star_nil r : matches (Star r) []
| m_star_app r s1 s2 : matches r s1 -> matches (Star r) s2 -> matches (Star r) (s1 ++ s2).

(** [found r s]: some slice of [s] is matched by [r], which is when
    [re.search] returns a match object. *)
Definition found (r : regex) (s : str) : Prop :=
  exists pre m post, s = pre ++ m ++ post /\ matches r m.

(** *** Matching by derivatives *)

Fixpoint nullable (r : regex) : bool :=
  match r with
  | Zero => false
  | Eps => true
  | Chr _ => false
  | Seq r1 r2 => nullable r1 && nullable r2
  | Alt r1 r2 => nullable r1 || nullable r2
  | Star _ => true
  end.

Definition seq (r1 r2 : regex) : regex :=
  match r1, r2 with
  | Zero, _ => Zero
  | _, Zero => Zero
  | Eps, _ => r2
  | _, Eps => r1
  | _, _ => Seq r1 r2
  end.

Definition alt (r1 r2 : regex) : regex :=
  match r1, r2 with
  | Zero, _ => r2
  | _, Zero => r1
  | _, _ => Alt r1 r2
  end.

Fixpoint deriv (c : N) (r : regex) : regex :=
  match r with
  | Zero => Zero
  | Eps => Zero
  | Chr cs => if charset_has cs c then Eps else Zero
  | Seq r1 r2 =>
    if nullable r1 then alt (seq (deriv c r1) r2) (deriv c r2)
    else seq (deriv c r1) r2
  | Alt r1 r2 => alt (deriv c r1) (deriv c r2)
  | Star r1 => seq (deriv c r1) (Star r1)
  end.

Definition is_zero (r : regex) : bool :=
  match r with Zero => true | _ => false end.

(** Does [r] match a prefix of [s]? *)
Fixpoint match_prefix (r : regex) (s : str) : bool :=
  nullable r ||
  match s with
  | [] => false
  | c :: s' => let r' := deriv c r in
               if is_zero r' then false else match_prefix r' s'
  end.

(** Does [r] match a slice of [s]?  The scan of [re.search] over the start
    positions. *)
Fixpoint search (r : regex) (s : str) : bool :=
  match_prefix r s ||
  match s with
  | [] => false
  | _ :: s' => search r s'
  end.

End Re.

(** ** Exceptions *)

Inductive exn : Type :=
| AttributeError                    (* [.get] on a value that has none *)
| KeyError                          (* subscript of a [dict] by an absent key *)
| ReError.                          (* [re.error]: a pattern does not compile *)

Inductive result (A : Type) : Type :=
| Ok (a : A)
| Raise (e : exn).
Arguments Ok {A} a.
Arguments Raise {A} e.

#[global] Instance result_ret : MRet result := fun A a => Ok a.
#[global] Instance result_bind : MBind result := fun A B f m =>
  match m with
  | Ok a => f a
  | Raise e => Raise e
  end.

(** ** Data model *)

Inductive SeverityLevel : Type := INFO | WARNING | CRITICAL.

Inductive AnomalyType : Type :=
| IMPOSSIBLE_INSTRUCTION
| LOGICAL_INCONSISTENCY
| DATA_CONFLICT
| PROTOCOL_VIOLATION.

(** The ["anomaly"] entry of a rule.  The payload strings are only ever
    copied, so they stay the UTF-8 literals of the source. *)
Module Template.
Record t : Type :=
  { type : AnomalyType;
    severity : SeverityLevel;
    title : string;
    description : string;
    evidence : list string;
    recommendation : string;
    protocol_reference : option string }.
End Template.

Record Anomaly : Type :=
  { type : AnomalyType;
    severity : SeverityLevel;
    title : string;
    description : string;
    evidence : list string;
    recommendation : string;
    protocol_reference : option string }.

#[global] Instance SeverityLevel_eq_dec : EqDecision SeverityLevel.
Proof. solve_decision. Defined.
#[global] Instance AnomalyType_eq_dec : EqDecision AnomalyType.
Proof. solve_decision. Defined.
#[global] Instance Anomaly_eq_dec : EqDecision Anomaly.
Proof. solve_decision. Defined.

(** A rule of the table: a [dict] with the key ["patterns"], at most one
    entry per conflict-group key, and ["anomaly"]. *)
Record pattern_set : Type :=
  { patterns : list string;
    instruction_patterns : option (list string);
    conclusion_patterns : option (list string);
    conflict_patterns : option (list string);
    value_patterns : option (list string);
    anomaly : Template.t }.

Inductive group_key : Type :=
| key_instruction_patterns
| key_conclusion_patterns
| key_conflict_patterns
| key_value_patterns.

(** [pattern_set.get(key)] for a conflict-group key. *)
Definition get_group (ps : pattern_set) (key : group_key) : option (list string) :=
  match key with
  | key_instruction_patterns => instruction_patterns ps
  | key_conclusion_patterns => conclusion_patterns ps
  | key_conflict_patterns => conflict_patterns ps
  | key_value_patterns => value_patterns ps
  end.

(** Values of the request context, as the JSON body of a request gives
    them. *)
#[warnings="-register-all"]
Inductive pyval : Type :=
| PyNone
| PyBool (b : bool)
| PyInt (z : Z)
| PyFloat (q : Q)
| PyStr (s : str)
| PyList (l : list pyval)
| PyDict (d : gmap str pyval).

(** Truth value of a Python object. *)
Definition truthy (v : pyval) : bool :=
  match v with
  | PyNone => false
  | PyBool b => b
  | PyInt z => negb (z =? 0)%Z
  | PyFloat q => negb (Qeq_bool q 0)
  | PyStr s => negb (bool_decide (s = []))
  | PyList l => match l with [] => false | _ => true end
  | PyDict d => negb (bool_decide (d = ∅))
  end.

(** ** The rule table *)

Definition rule_blind_patient : pattern_set :=
  {| patterns :=
       [ "retinopat";
         "slep";
         "vid.*ostecen";
         "H36\.0";
         "dijabeti.*retinopat" ];
     instruction_patterns := Some
       [ "upis";
         "pis(ati|uje|e|i)";
         "[cč]ita";
         "bele[zž]i";
         "evidentira";
         "meri(ti)?.*glikemij";
         "javi(ti)?.*lekar" ];
     conclusion_patterns := None;
     conflict_patterns := None;
     value_patterns := None;
     anomaly :=
       {| Template.type := IMPOSSIBLE_INSTRUCTION;
          Template.severity := CRITICAL;
          Template.title := "Nemoguće uputstvo - zahteva vid kod slepog pacijenta";
          Template.description :=
            "Dokumentacija sadrži uputstvo koje zahteva vid (čitanje/pisanje vrednosti), ali pacijent ima dijagnostifikovano teško oštećenje vida ili slepoću (retinopatija).";
          Template.evidence :=
            [ "Dijagnoza: H36.0 (Retinopathia diabetica) ili ekvivalent";
              "Uputstvo zahteva vizuelnu aktivnost (čitanje, pisanje, beleženje)" ];
          Template.recommendation :=
            "Obezbediti asistenciju treće osobe ili govorni glukometar sa audio povratnom informacijom. Alternativno: CGM (kontinuirani monitoring glukoze) sa alarmima.";
          Template.protocol_reference := Some "Vodič za dijabetes Batuta 2023, Sekcija 4.2 - Prilagođavanje terapije" |} |}.

Definition rule_hypoglycemia : pattern_set :=
  {| patterns :=
       [ "glikemij.*[0-2]\.[0-9]";
         "glukoz.*[0-2]\.[0-9]";
         "[0-2]\.[0-9]\s*mmol";
         "hipoglikemij" ];
     instruction_patterns := None;
     conclusion_patterns := Some
       [ "dobr.*praks";
         "u skladu";
         "pravilno";
         "adekvatn";
         "bez propust" ];
     conflict_patterns := None;
     value_patterns := None;
     anomaly :=
       {| Template.type := LOGICAL_INCONSISTENCY;
          Template.severity := CRITICAL;
          Template.title := "Logička nekonzistentnost - opasna hipoglikemija opisana kao 'dobra praksa'";
          Template.description :=
            "Dokumentacija navodi kritično nisku glikemiju (< 2.2 mmol/L je ozbiljna hipoglikemija), ali zaključak tvrdi da je postupanje bilo u skladu sa dobrom praksom.";
          Template.evidence :=
            [ "Glikemija ispod kritičnog praga (< 2.2 mmol/L)";
              "Zaključak pozitivno ocenjuje postupanje" ];
          Template.recommendation :=
            "Revidirati zaključak. Prema Vodiču Batuta, glikemija < 2.2 mmol/L zahteva hitnu intervenciju. Ako je pacijent na dugom insulinu, neophodna je hospitalizacija.";
          Template.protocol_reference := Some "Vodič Batuta za prehospitalna urgentna stanja, Hipoglikemija" |} |}.

Definition rule_care_not_provided : pattern_set :=
  {| patterns :=
       [ "nega.*nije.*obezbe[dđ]";
         "nije.*obezbe[dđ].*nega";
         "bez.*nege";
         "nega.*nedostup" ];
     instruction_patterns := None;
     conclusion_patterns := Some
       [ "dobr.*praks";
         "u skladu";
         "pravilno";
         "adekvatn" ];
     conflict_patterns := None;
     value_patterns := None;
     anomaly :=
       {| Template.type := LOGICAL_INCONSISTENCY;
          Template.severity := CRITICAL;
          Template.title := "Kontradikcija - 'nega nije obezbeđena' + 'dobra praksa'";
          Template.description :=
            "Dokumentacija eksplicitno navodi da nega nije obezbeđena, ali zaključak ocenjuje postupanje kao ispravno.";
          Template.evidence :=
            [ "Izjava: 'nega nije obezbeđena' (ili ekvivalent)";
              "Zaključak: pozitivna ocena postupanja" ];
          Template.recommendation :=
            "Uskladiti zaključak sa činjeničnim stanjem. Ako nega zaista nije bila obezbeđena, to ne može biti 'dobra praksa' prema bilo kom standardu.";
          Template.protocol_reference := None |} |}.

Definition rule_social_conflict : pattern_set :=
  {| patterns :=
       [ "sestra.*vodi.*ra[cč]un";
         "[cč]lan.*porodic.*brin";
         "srodnik.*obezbe[dđ]";
         "suprug.*poma[zž]" ];
     instruction_patterns := None;
     conclusion_patterns := None;
     conflict_patterns := Some
       [ "[zž]ivi\s+sam";
         "nema.*srodnik";
         "usamljen";
         "bez.*porodic";
         "samo.*[zž]ivi" ];
     value_patterns := None;
     anomaly :=
       {| Template.type := DATA_CONFLICT;
          Template.severity := WARNING;
          Template.title := "Konflikt podataka - navedena nega vs. socijalni status";
          Template.description :=
            "Medicinska dokumentacija navodi da će se član porodice/srodnik brinuti o pacijentu, ali socijalni podaci ukazuju da pacijent živi sam ili nema dostupne srodnike.";
          Template.evidence :=
            [ "Otpusna lista/plan: srodnik će se brinuti";
              "Socijalni karton: živi sam/nema srodnika u mestu" ];
          Template.recommendation :=
            "Verifikovati stvarno stanje pre otpusta. Ako pacijent zaista živi sam, organizovati kućnu negu ili razmotriti produženi boravak.";
          Template.protocol_reference := None |} |}.

Definition rule_discharge_glycemia : pattern_set :=
  {| patterns :=
       [ "otpu[sš]t.*sa.*gluk";
         "otpu[sš]t.*sa.*glikemij" ];
     instruction_patterns := None;
     conclusion_patterns := None;
     conflict_patterns := None;
     value_patterns := Some
       [ "[0-3]\.[0-9]\s*mmol";
         "glu.*[0-3]\.[0-9]" ];
     anomaly :=
       {| Template.type := PROTOCOL_VIOLATION;
          Template.severity := CRITICAL;
          Template.title := "Kršenje protokola - otpust sa kritičnom glikemijom";
          Template.description :=
            "Pacijent je otpušten sa glikemijom koja je ispod bezbednog praga. Prema protokolu, glikemija mora biti stabilizovana pre otpusta.";
          Template.evidence :=
            [ "Vrednost glikemije pri otpustu ispod 4.0 mmol/L" ];
          Template.recommendation :=
            "Pacijent sa glikemijom < 4.0 mmol/L ne bi trebalo da bude otpušten dok se vrednosti ne stabilizuju iznad 5.0 mmol/L tokom najmanje 2 sata.";
          Template.protocol_reference := Some "ADA Standards of Care 2024, Sekcija 6 - Hospitalizovani pacijenti" |} |}.

Definition DETECTION_PATTERNS : list pattern_set :=
  [ rule_blind_patient;
    rule_hypoglycemia;
    rule_care_not_provided;
    rule_social_conflict;
    rule_discharge_glycemia ].

(** ** The evaluator *)

(** [re.search(pattern, s)] as a truth value. *)
Definition re_search (pattern : string) (s : str) : result bool :=
  match Re.compile (utf8 pattern) with
  | Some r => Ok (Re.search r s)
  | None => Raise ReError
  end.

(** [any(re.search(p, s) for p in ps)]: the generator stops at the first
    match. *)
Fixpoint any_search (ps : list string) (s : str) : result bool :=
  match ps with
  | [] => Ok false
  | p :: ps' =>
    b ← re_search p s;
    if b : bool then Ok true else any_search ps' s
  end.

(** The probe for the conflict group: the first of the four keys the rule
    has. *)
Definition find_conflict_key (ps : pattern_set) : option group_key :=
  find (fun key => bool_decide (is_Some (get_group ps key)))
       [ key_instruction_patterns; key_conclusion_patterns;
         key_conflict_patterns; key_value_patterns ].

Definition make_anomaly (anomaly_data : Template.t) : Anomaly :=
  {| type := Template.type anomaly_data;
     severity := Template.severity anomaly_data;
     title := Template.title anomaly_data;
     description := Template.description anomaly_data;
     evidence := Template.evidence anomaly_data;
     recommendation := Template.recommendation anomaly_data;
     protocol_reference := Template.protocol_reference anomaly_data |}.

(** One turn of the loop over the table, on the accumulated [anomalies]. *)
Definition eval_rule (text_lower : str) (anomalies : list Anomaly)
    (ps : pattern_set) : result (list Anomaly) :=
  base_match ← any_search (patterns ps) text_lower;
  if negb base_match then Ok anomalies else
  match find_conflict_key ps with
  | None => Ok anomalies
  | Some conflict_key =>
    match get_group ps conflict_key with
    | None => Raise KeyError
    | Some group =>
      conflict ← any_search group text_lower;
      if conflict : bool
      then Ok (anomalies ++ [make_anomaly (anomaly ps)])
      else Ok anomalies
    end
  end.

Fixpoint eval_rules (table : list pattern_set) (text_lower : str)
    (anomalies : list Anomaly) : result (list Anomaly) :=
  match table with
  | [] => Ok anomalies
  | ps :: table' =>
    anomalies' ← eval_rule text_lower anomalies ps;
    eval_rules table' text_lower anomalies'
  end.

(** The block on the social record at the end of [detect_anomalies]. *)
Definition read_context (context : option (gmap str pyval))
    (text_lower : str) : result unit :=
  match context with
  | None => Ok tt
  | Some ctx =>
    if negb (bool_decide (ctx = ∅))
       && bool_decide (is_Some (ctx !! utf8 "social_status"))
    then
      match ctx !! utf8 "social_status" with
      | None => Raise KeyError
      | Some (PyDict social) =>
        if truthy (default PyNone (social !! utf8 "lives_alone"))
           && text_in (utf8 "sestra") text_lower
        then Ok tt                  (* pass *)
        else Ok tt
      | Some _ => Raise AttributeError
      end
    else Ok tt
  end.

(** [detect_anomalies] over a given rule table. *)
Definition detect_anomalies_with (table : list pattern_set) (text : str)
    (context : option (gmap str pyval)) : result (list Anomaly) :=
  let text_lower := lower text in
  anomalies ← eval_rules table text_lower [];
  _ ← read_context context text_lower;
  Ok anomalies.

Definition detect_anomalies : str -> option (gmap str pyval) -> result (list Anomaly) :=
  detect_anomalies_with DETECTION_PATTERNS.

(** ** Response assembly *)

Record AnalysisRequest : Type :=
  { document_text : str;
    document_type : option string;
    patient_context : option (gmap str pyval) }.

Record AnalysisResponse : Type :=
  { request_id : string;
    timestamp : string;
    anomalies_found : nat;
    anomalies : list Anomaly;
    processing_time_ms : Z;
    model_used : string;
    confidence : Q }.

(** What a call reads from its environment: the integer
    [int((time.time() - start_time) * 1000)], the fresh [uuid4] and the
    clock's ISO-8601 reading. *)
Record environment : Type :=
  { elapsed_ms : Z;
    uuid4 : string;
    utcnow_isoformat : string }.

Inductive effect : Type :=
| Sleep (seconds : Q).              (* [await asyncio.sleep(seconds)] *)

Definition analyze_document (env : environment) (request : AnalysisRequest)
    : result (list effect * AnalysisResponse) :=
  anomalies ← detect_anomalies (document_text request) (patient_context request);
  let processing_time := elapsed_ms env in
  let '(effects, processing_time) :=
    if (processing_time <? 100)%Z
    then ([Sleep 0.1], (100 + processing_time)%Z)
    else ([], processing_time) in
  Ok (effects,
      {| request_id := uuid4 env;
         timestamp := (utcnow_isoformat env ++ "Z")%string;
         anomalies_found := length anomalies;
         anomalies := anomalies;
         processing_time_ms := processing_time;
         model_used := "ai-mock-v1 (demo) | Production: OpenBioLLM-70B + DeepSeek-R1";
         confidence := if anomalies is [] then 0.85 else 0.95 |}).

(** ** The example documents of [get_examples] *)

Definition example_blind_patient_instructions : str :=
  utf8 "
OTPUSNA LISTA
Dijagnoza: E11.3 (Diabetes mellitus tip 2 sa oftalmološkim komplikacijama)
           H36.0 (Retinopathia diabetica, OU - oba oka)

Terapija pri otpustu:
- Insulin glargin 20 j SC uveče
- Metformin 1000mg 2x1

Uputstvo za pacijenta:
1. Meriti glikemiju 4x dnevno (ujutru natašte, pre ručka, pre večere, pred spavanje)
2. Da upiše sve glikemije manje od 3,5 mmol/L
3. Da upiše sve glikemije veće od 13,0 mmol/L
4. Javiti se lekaru ako glikemija padne ispod 3,5 ili poraste iznad 13,0

Kontrola za 30 dana.
                ".

Definition example_critical_hypoglycemia : str :=
  utf8 "
IZVEŠTAJ SAVETNIKA ZA ZAŠTITU PRAVA PACIJENATA

Predmet: Pritužba na postupanje zdravstvene ustanove

Činjenično stanje:
- Pacijent dovezen sa glikemijom 0,7 mmol/L
- Lekar izjavio da " ++ [0x22] ++
  utf8 "nega nije obezbeđena u kućnim uslovima" ++ [0x22] ++
  utf8 "
- Pacijent otpušten istog dana
- Prepisan dugodjelujući insulin (glargin)

Ocena savetnika:
Na osnovu uvida u medicinsku dokumentaciju, utvrđeno je da je postupanje
zdravstvene ustanove bilo u skladu sa dobrom kliničkom praksom.

Pritužba se odbija kao neosnovana.
                ".

Definition example_social_conflict : str :=
  utf8 "
OTPUSNA LISTA

Socijalna anamneza: Pacijent živi sam u stanu, nema srodnika u gradu.
Supruga preminula pre 3 godine. Deca žive u inostranstvu.

Plan nege nakon otpusta:
- Sestra će voditi računa o redovnom uzimanju terapije
- Kontrola kod izabranog lekara za 7 dana
- Kućna nega nije potrebna

Napomena: Pacijent je upoznat sa terapijom i otpušta se na kućno lečenje.
                ".

Definition example_normal_document : str :=
  utf8 "
OTPUSNA LISTA

Dijagnoza: E11.9 (Diabetes mellitus tip 2 bez komplikacija)

Terapija:
- Metformin 500mg 2x1

Preporuke:
- Dijeta sa smanjenim unosom ugljenih hidrata
- Fizička aktivnost 30 min dnevno
- Kontrola HbA1c za 3 meseca

Pacijent je edukovan o znacima hipoglikemije i hiperglikemije.
Porodica je uključena u plan lečenja.
                ".

(** ** The example set of [get_examples] *)

(** [AnomalyType.name]: the member names the examples are labelled with. *)
Definition AnomalyType_name (t : AnomalyType) : string :=
  match t with
  | IMPOSSIBLE_INSTRUCTION => "IMPOSSIBLE_INSTRUCTION"
  | LOGICAL_INCONSISTENCY => "LOGICAL_INCONSISTENCY"
  | DATA_CONFLICT => "DATA_CONFLICT"
  | PROTOCOL_VIOLATION => "PROTOCOL_VIOLATION"
  end.

(** An entry of the list under ["examples"]. *)
Module Example.
Record t : Type :=
  { id : string;
    title : string;
    description : string;
    document_text : str;
    expected_anomaly : option string }.
End Example.

Definition get_examples : list Example.t :=
  [
    {| Example.id := "blind_patient_instructions";
       Example.title := "Nemoguće uputstvo - slepi pacijent";
       Example.description :=
         "Pacijent sa dijabetičkom retinopatijom oba oka dobija uputstvo da čita i zapisuje vrednosti glikemije";
       Example.document_text := example_blind_patient_instructions;
       Example.expected_anomaly := Some "IMPOSSIBLE_INSTRUCTION" |};
    {| Example.id := "critical_hypoglycemia";
       Example.title := "Kritična hipoglikemija - logička nekonzistentnost";
       Example.description :=
         "Izveštaj koji ocenjuje kao 'dobru praksu' postupanje gde je pacijent imao kritičnu hipoglikemiju";
       Example.document_text := example_critical_hypoglycemia;
       Example.expected_anomaly := Some "LOGICAL_INCONSISTENCY" |};
    {| Example.id := "social_conflict";
       Example.title := "Konflikt podataka - sestra vs. živi sam";
       Example.description :=
         "Otpusna lista navodi da će se sestra brinuti, ali pacijent živi sam";
       Example.document_text := example_social_conflict;
       Example.expected_anomaly := Some "DATA_CONFLICT" |};
    {| Example.id := "normal_document";
       Example.title := "Normalan dokument - bez anomalija";
       Example.description :=
         "Primer ispravne medicinske dokumentacije";
       Example.document_text := example_normal_document;
       Example.expected_anomaly := None |} ].

(** ** Notions the properties are stated with *)

(** A pattern of the table in compiled form. *)
Definition compiles (pattern : string) : bool :=
  bool_decide (is_Some (Re.compile (utf8 pattern))).

Definition re (pattern : string) : Re.regex :=
  default Re.Zero (Re.compile (utf8 pattern)).

(** One of the patterns [ps] is found somewhere in [s]. *)
Definition any_found (ps : list string) (s : str) : Prop :=
  exists p r, p ∈ ps /\ Re.compile (utf8 p) = Some r /\ Re.found r s.

(** The conflict group of a rule: the group under the first of the keys
    [instruction], [conclusion], [conflict], [value] that the rule has. *)
Definition conflict_group (ps : pattern_set) : list string :=
  match instruction_patterns ps with
  | Some g => g
  | None =>
    match conclusion_patterns ps with
    | Some g => g
    | None =>
      match conflict_patterns ps with
      | Some g => g
      | None => default [] (value_patterns ps)
      end
    end
  end.

(** Both groups of the rule match the lowercased text. *)
Definition fires (ps : pattern_set) (text : str) : Prop :=
  any_found (patterns ps) (lower text) /\
  any_found (conflict_group ps) (lower text).

(** Every pattern of the table compiles. *)
Definition rule_ok (ps : pattern_set) : bool :=
  forallb compiles (patterns ps) && forallb compiles (conflict_group ps).

Definition table_ok (table : list pattern_set) : bool := forallb rule_ok table.

(** What a rule contributes on a lowercased text, and the findings of a
    whole table, in closed form. *)
Definition rule_findings (text_lower : str) (ps : pattern_set) : list Anomaly :=
  if existsb (fun p => Re.search (re p) text_lower) (patterns ps)
     && existsb (fun p => Re.search (re p) text_lower) (conflict_group ps)
  then [make_anomaly (anomaly ps)]
  else [].

Definition findings (table : list pattern_set) (text : str) : list Anomaly :=
  flat_map (rule_findings (lower text)) table.

(** The finding a rule emits. *)
Definition template (ps : pattern_set) : Anomaly := make_anomaly (anomaly ps).

(** A context as the request schema describes it: ["social_status"], when
    present, holds a mapping. *)
Definition context_ok (context : option (gmap str pyval)) : Prop :=
  match context with
  | None => True
  | Some ctx =>
    match ctx !! utf8 "social_status" with
    | None | Some (PyDict _) => True
    | Some _ => False
    end
  end.

(** Does a value support [.get]? *)
Definition has_get (v : pyval) : bool :=
  match v with PyDict _ => true | _ => false end.

(** The rule table with one base pattern struck out of every rule. *)
Definition drop_base_pattern (pattern : string) (ps : pattern_set) : pattern_set :=
  {| patterns := filter (fun p => p <> pattern) (patterns ps);
     instruction_patterns := instruction_patterns ps;
     conclusion_patterns := conclusion_patterns ps;
     conflict_patterns := conflict_patterns ps;
     value_patterns := value_patterns ps;
     anomaly := anomaly ps |}.

(** Every match of [r] contains the code point [c]. *)
Fixpoint requires (c : N) (r : Re.regex) : bool :=
  match r with
  | Re.Zero => true
  | Re.Eps => false
  | Re.Chr (Re.CLit c') => c =? c'
  | Re.Chr _ => false
  | Re.Seq r1 r2 => requires c r1 || requires c r2
  | Re.Alt r1 r2 => requires c r1 && requires c r2
  | Re.Star _ => false
  end.

(** The two lowercase sigmas are interchangeable for [r]: no set or literal
    of [r] tells them apart. *)
Definition same_sigma (a b : N) : Prop :=
  a = b \/ ((a = Unicode.SMALL_SIGMA \/ a = Unicode.FINAL_SIGMA) /\
            (b = Unicode.SMALL_SIGMA \/ b = Unicode.FINAL_SIGMA)).

Fixpoint sigma_blind (r : Re.regex) : bool :=
  match r with
  | Re.Zero | Re.Eps => true
  | Re.Chr cs =>
    eqb (Re.charset_has cs Unicode.SMALL_SIGMA) (Re.charset_has cs Unicode.FINAL_SIGMA)
  | Re.Seq r1 r2 | Re.Alt r1 r2 => sigma_blind r1 && sigma_blind r2
  | Re.Star r1 => sigma_blind r1
  end.

Definition patterns_sigma_blind (ps : list string) : bool :=
  forallb (fun p => sigma_blind (re p)) ps.

(** Code points of Basic Latin, Latin-1 Supplement and Latin Extended-A
    whose uppercase form lowercases back to their own lowercase form: all
    but the micro sign, sharp s, dotless i, n preceded by apostrophe and
    long s. *)
Definition latin_stable (c : N) : bool :=
  (c <? 0x180) &&
  negb ((c =? 0xB5) || (c =? 0xDF) || (c =? 0x131) || (c =? 0x149) || (c =? 0x17F)).

Definition is_ascii_upper (c : N) : bool := (0x41 <=? c) && (c <=? 0x5A).

(** The per-code-point facts behind [latin_stable]: case conversion of [c]
    produces no capital sigma, uppercasing then lowercasing gives the
    lowercase form, and lowercasing twice gives it too. *)
Definition latin_check (c : N) : bool :=
  negb (c =? Unicode.CAPITAL_SIGMA)
  && forallb (fun u => negb (u =? Unicode.CAPITAL_SIGMA)) (Unicode.to_upper_full c)
  && forallb (fun u => negb (u =? Unicode.CAPITAL_SIGMA)) (Unicode.to_lower_full c)
  && bool_decide (flat_map Unicode.to_lower_full (Unicode.to_upper_full c)
                  = Unicode.to_lower_full c)
  && bool_decide (flat_map Unicode.to_lower_full (Unicode.to_lower_full c)
                  = Unicode.to_lower_full c).


(** ** Decimal numbers in a text *)

(** The set [cs] holds nothing outside [lo .. hi]. *)
Definition charset_within (lo hi : N) (cs : Re.charset) : bool :=
  match cs with
  | Re.CLit c => (lo <=? c) && (c <=? hi)
  | Re.CSet items => forallb (fun e => (lo <=? fst e) && (snd e <=? hi)) items
  | Re.CDot | Re.CSpace => false
  end.

(** [r] begins with a digit from [0] to [top], a full stop and a digit. *)
Definition starts_decimal (top : N) (r : Re.regex) : bool :=
  match r with
  | Re.Seq (Re.Chr a) (Re.Seq (Re.Chr b) rest) =>
    charset_within 0x30 top a && charset_within 0x2E 0x2E b &&
    match rest with
    | Re.Chr c | Re.Seq (Re.Chr c) _ => charset_within 0x30 0x39 c
    | _ => false
    end
  | _ => false
  end.

(** Every match of [r] holds such a number. *)
Fixpoint requires_decimal (top : N) (r : Re.regex) : bool :=
  starts_decimal top r ||
  match r with
  | Re.Seq r1 r2 => requires_decimal top r1 || requires_decimal top r2
  | Re.Alt r1 r2 => requires_decimal top r1 && requires_decimal top r2
  | _ => false
  end.

(** [s] holds a digit from [0] to [top], a full stop and a digit in a row:
    a number below [top + 1] written with a decimal point. *)
Definition has_decimal (top : N) (s : str) : Prop :=
  exists pre d1 d2 post,
    s = pre ++ [d1; 0x2E; d2] ++ post /\
    0x30 <= d1 <= top /\ 0x30 <= d2 <= 0x39.

(** What [lower] writes for one code point [c] followed by [rest]. *)
Definition lower_piece (prev : bool) (c : N) (rest : str) : str :=
  if c =? Unicode.CAPITAL_SIGMA
  then [if prev && negb (Unicode.cased_follows rest)
        then Unicode.FINAL_SIGMA else Unicode.SMALL_SIGMA]
  else Unicode.to_lower_full c.

(** ** Lines *)

Definition NEWLINE : N := 0x0A.

(** No match of [r] holds a line feed. *)
Fixpoint newline_free (r : Re.regex) : bool :=
  match r with
  | Re.Zero | Re.Eps => true
  | Re.Chr cs => negb (Re.charset_has cs NEWLINE)
  | Re.Seq r1 r2 | Re.Alt r1 r2 => newline_free r1 && newline_free r2
  | Re.Star r1 => newline_free r1
  end.

(** ** Letters *)

(** Every match of [r] holds a code point from [lo] on. *)
Fixpoint requires_above (lo : N) (r : Re.regex) : bool :=
  match r with
  | Re.Zero => true
  | Re.Eps => false
  | Re.Chr (Re.CLit c) => lo <=? c
  | Re.Chr (Re.CSet items) => forallb (fun e => lo <=? fst e) items
  | Re.Chr _ => false
  | Re.Seq r1 r2 => requires_above lo r1 || requires_above lo r2
  | Re.Alt r1 r2 => requires_above lo r1 && requires_above lo r2
  | Re.Star _ => false
  end.


(** * Properties *)

(** ** The matcher decides the language of a pattern *)

Module ReFacts.
Import Re.

Lemma matches_zero s : ~ matches Zero s.
Proof. intros H; inversion H. Qed.

Lemma matches_eps_inv s : matches Eps s -> s = [].
Proof. intros H; inversion H; reflexivity. Qed.

Lemma matches_chr_inv cs s :
  matches (Chr cs) s -> exists c, s = [c] /\ charset_has cs c = true.
Proof. intros H; inversion H; subst; eauto. Qed.

Lemma matches_seq_inv r1 r2 s :
  matches (Seq r1 r2) s ->
  exists s1 s2, s = s1 ++ s2 /\ matches r1 s1 /\ matches r2 s2.
Proof. intros H; inversion H; subst; eauto. Qed.

Lemma matches_alt_inv r1 r2 s :
  matches (Alt r1 r2) s -> matches r1 s \/ matches r2 s.
Proof. intros H; inversion H; subst; auto. Qed.

(** A non-empty match of a star starts with a non-empty match of its body. *)
Lemma matches_star_cons r c s :
  matches (Star r) (c :: s) ->
  exists s1 s2, s = s1 ++ s2 /\ matches r (c :: s1) /\ matches (Star r) s2.
Proof.
  intros H. remember (Star r) as r' eqn:Er. remember (c :: s) as t eqn:Et.
  revert c s Et.
  induction H as [| | | | | |r0 s1 s2 H1 _ H2 IH2]; intros c' s' Et; try discriminate.
  injection Er as ->.
  destruct s1 as [|c1 s1].
  - simpl in Et. apply IH2; auto.
  - simpl in Et. injection Et as -> <-. exists s1, s2; auto.
Qed.

Lemma nullable_matches r : nullable r = true <-> matches r [].
Proof.
  induction r as [| |cs|r1 IH1 r2 IH2|r1 IH1 r2 IH2|r IH]; simpl.
  - split; [discriminate | intros H; inversion H].
  - split; [constructor | reflexivity].
  - split; [discriminate | intros H; inversion H].
  - rewrite andb_true_iff, IH1, IH2. split.
    + intros [H1 H2]. change (@nil N) with (@nil N ++ []). constructor; assumption.
    + intros H. apply matches_seq_inv in H as (s1 & s2 & E & H1 & H2).
      symmetry in E. apply app_eq_nil in E as [-> ->]. auto.
  - rewrite orb_true_iff, IH1, IH2. split.
    + intros [H|H]; [apply m_alt_l | apply m_alt_r]; assumption.
    + apply matches_alt_inv.
  - split; [constructor | reflexivity].
Qed.

Lemma seq_matches r1 r2 s : matches (seq r1 r2) s <-> matches (Seq r1 r2) s.
Proof.
  assert (Hz1 : forall r, matches Zero s <-> matches (Seq Zero r) s).
  { intros r; split; intros H; [inversion H |].
    apply matches_seq_inv in H as (? & ? & _ & H & _); inversion H. }
  assert (Hz2 : forall r, matches Zero s <-> matches (Seq r Zero) s).
  { intros r; split; intros H; [inversion H |].
    apply matches_seq_inv in H as (? & ? & _ & _ & H); inversion H. }
  assert (He1 : forall r, matches r s <-> matches (Seq Eps r) s).
  { intros r; split; intros H.
    - change s with ([] ++ s). constructor; [constructor | assumption].
    - apply matches_seq_inv in H as (s1 & s2 & -> & H1 & H2).
      apply matches_eps_inv in H1 as ->. assumption. }
  assert (He2 : forall r, matches r s <-> matches (Seq r Eps) s).
  { intros r; split; intros H.
    - rewrite <- (app_nil_r s). constructor; [assumption | constructor].
    - apply matches_seq_inv in H as (s1 & s2 & -> & H1 & H2).
      apply matches_eps_inv in H2 as ->. rewrite app_nil_r. assumption. }
  destruct r1, r2; simpl; auto; reflexivity.
Qed.

Lemma alt_matches r1 r2 s : matches (alt r1 r2) s <-> matches (Alt r1 r2) s.
Proof.
  assert (Hz1 : forall r, matches r s <-> matches (Alt Zero r) s).
  { intros r; split; intros H; [apply m_alt_r; assumption |].
    apply matches_alt_inv in H as [H|H]; [inversion H | assumption]. }
  assert (Hz2 : forall r, matches r s <-> matches (Alt r Zero) s).
  { intros r; split; intros H; [apply m_alt_l; assumption |].
    apply matches_alt_inv in H as [H|H]; [assumption | inversion H]. }
  destruct r1, r2; simpl; auto; reflexivity.
Qed.

Lemma deriv_matches c r s : matches (deriv c r) s <-> matches r (c :: s).
Proof.
  revert s.
  induction r as [| |cs|r1 IH1 r2 IH2|r1 IH1 r2 IH2|r IH]; intros s; simpl.
  - split; intros H; inversion H.
  - split; intros H; inversion H.
  - destruct (charset_has cs c) eqn:E; split; intros H.
    + apply matches_eps_inv in H as ->. constructor; assumption.
    + inversion H; subst. constructor.
    + inversion H.
    + inversion H; subst; congruence.
  - assert (Hl : matches (seq (deriv c r1) r2) s <->
                 exists s1 s2, s = s1 ++ s2 /\ matches r1 (c :: s1) /\ matches r2 s2).
    { rewrite seq_matches. split.
      - intros H. apply matches_seq_inv in H as (s1 & s2 & -> & H1 & H2).
        apply IH1 in H1. eauto.
      - intros (s1 & s2 & -> & H1 & H2). constructor; [apply IH1 |]; assumption. }
    destruct (nullable r1) eqn:En.
    + rewrite alt_matches. split.
      * intros H. apply matches_alt_inv in H as [H|H].
        -- apply Hl in H as (s1 & s2 & -> & H1 & H2).
           change (c :: s1 ++ s2) with ((c :: s1) ++ s2). constructor; assumption.
        -- apply IH2 in H. change (c :: s) with ([] ++ c :: s).
           constructor; [apply nullable_matches |]; assumption.
      * intros H. apply matches_seq_inv in H as (s1 & s2 & E & H1 & H2).
        destruct s1 as [|c1 s1]; simpl in E.
        -- subst s2. apply m_alt_r, IH2. assumption.
        -- injection E as <- ->. apply m_alt_l, Hl. eauto.
    + rewrite Hl. split.
      * intros (s1 & s2 & -> & H1 & H2).
        change (c :: s1 ++ s2) with ((c :: s1) ++ s2). constructor; assumption.
      * intros H. apply matches_seq_inv in H as (s1 & s2 & E & H1 & H2).
        destruct s1 as [|c1 s1]; simpl in E.
        -- apply nullable_matches in H1. congruence.
        -- injection E as <- ->. eauto.
  - rewrite alt_matches. split.
    + intros H. apply matches_alt_inv in H as [H|H];
        [apply m_alt_l, IH1 | apply m_alt_r, IH2]; assumption.
    + intros H. apply matches_alt_inv in H as [H|H];
        [apply m_alt_l, IH1 | apply m_alt_r, IH2]; assumption.
  - rewrite seq_matches. split.
    + intros H. apply matches_seq_inv in H as (s1 & s2 & -> & H1 & H2).
      change (c :: s1 ++ s2) with ((c :: s1) ++ s2).
      constructor; [apply IH |]; assumption.
    + intros H. apply matches_star_cons in H as (s1 & s2 & -> & H1 & H2).
      constructor; [apply IH |]; assumption.
Qed.

Lemma is_zero_true r : is_zero r = true -> r = Zero.
Proof. destruct r; simpl; congruence. Qed.

Lemma match_prefix_spec r s :
  match_prefix r s = true <-> exists m post, s = m ++ post /\ matches r m.
Proof.
  revert r. induction s as [|c s IH]; intros r; simpl.
  - rewrite orb_false_r, nullable_matches. split.
    + intros H. exists [], []. auto.
    + intros (m & post & E & H). symmetry in E.
      apply app_eq_nil in E as [-> _]. assumption.
  - rewrite orb_true_iff, nullable_matches. split.
    + intros [H|H].
      * exists [], (c :: s). auto.
      * destruct (is_zero (deriv c r)) eqn:Ez; [discriminate |].
        apply IH in H as (m & post & -> & H). apply deriv_matches in H.
        exists (c :: m), post. auto.
    + intros (m & post & E & H). destruct m as [|c' m]; [left; assumption |].
      simpl in E. injection E as <- ->. right.
      apply deriv_matches in H.
      destruct (is_zero (deriv c r)) eqn:Ez.
      * apply is_zero_true in Ez. rewrite Ez in H. inversion H.
      * apply IH. eauto.
Qed.

(** [search] is [re.search] as a truth value. *)
Lemma search_spec r s : search r s = true <-> found r s.
Proof.
  unfold found. induction s as [|c s IH]; cbn [search].
  - rewrite orb_false_r, match_prefix_spec. split.
    + intros (m & post & E & H). exists [], m, post. auto.
    + intros (pre & m & post & E & H). symmetry in E.
      apply app_eq_nil in E as [-> E]. simpl in E. eauto.
  - rewrite orb_true_iff, match_prefix_spec, IH. split.
    + intros [(m & post & E & H)|(pre & m & post & -> & H)].
      * exists [], m, post. auto.
      * exists (c :: pre), m, post. auto.
    + intros (pre & m & post & E & H). destruct pre as [|c' pre]; simpl in E.
      * left. eauto.
      * injection E as <- ->. right. eauto.
Qed.

End ReFacts.

(** ** The evaluator in closed form *)

Lemma bind_Ok {A B} (a : A) (f : A -> result B) : (Ok a ≫= f) = f a.
Proof. reflexivity. Qed.

Lemma compiles_re p : compiles p = true -> Re.compile (utf8 p) = Some (re p).
Proof.
  unfold compiles, re. intros H. apply bool_decide_eq_true in H as [r Hr].
  rewrite Hr. reflexivity.
Qed.

Lemma re_search_ok p s : compiles p = true -> re_search p s = Ok (Re.search (re p) s).
Proof. intros H. unfold re_search. rewrite (compiles_re p H). reflexivity. Qed.

Lemma any_search_ok ps s :
  forallb compiles ps = true ->
  any_search ps s = Ok (existsb (fun p => Re.search (re p) s) ps).
Proof.
  induction ps as [|p ps IH]; simpl; [reflexivity |].
  intros H. apply andb_true_iff in H as [Hp Hps].
  rewrite (re_search_ok p s Hp), bind_Ok.
  destruct (Re.search (re p) s); simpl; auto.
Qed.

(** The key probe selects [conflict_group]. *)
Lemma find_conflict_key_group ps :
  match find_conflict_key ps with
  | Some key => get_group ps key = Some (conflict_group ps)
  | None => conflict_group ps = []
  end.
Proof.
  destruct ps as [b [i|] [c|] [f|] [v|] a]; reflexivity.
Qed.

Lemma eval_rule_ok text_lower acc ps :
  rule_ok ps = true ->
  eval_rule text_lower acc ps = Ok (acc ++ rule_findings text_lower ps).
Proof.
  intros H. apply andb_true_iff in H as [Hb Hc].
  unfold eval_rule, rule_findings.
  rewrite (any_search_ok _ _ Hb), bind_Ok.
  destruct (existsb _ (patterns ps)); simpl; [| rewrite app_nil_r; reflexivity].
  pose proof (find_conflict_key_group ps) as Hk.
  destruct (find_conflict_key ps) as [key|].
  - rewrite Hk, (any_search_ok _ _ Hc), bind_Ok.
    destruct (existsb _ (conflict_group ps)); [| rewrite app_nil_r]; reflexivity.
  - rewrite Hk. simpl. rewrite app_nil_r. reflexivity.
Qed.

Lemma eval_rules_ok table text_lower acc :
  table_ok table = true ->
  eval_rules table text_lower acc =
  Ok (acc ++ flat_map (rule_findings text_lower) table).
Proof.
  revert acc. induction table as [|ps table IH]; intros acc H; simpl.
  - rewrite app_nil_r. reflexivity.
  - apply andb_true_iff in H as [Hps Ht].
    rewrite (eval_rule_ok _ _ _ Hps), bind_Ok, (IH _ Ht), <- app_assoc.
    reflexivity.
Qed.

Lemma detect_anomalies_with_ok table text context :
  table_ok table = true ->
  detect_anomalies_with table text context =
  (read_context context (lower text) ≫= fun _ => Ok (findings table text)).
Proof.
  intros H. unfold detect_anomalies_with.
  rewrite (eval_rules_ok _ _ _ H), bind_Ok. reflexivity.
Qed.

Lemma read_context_None text_lower : read_context None text_lower = Ok tt.
Proof. reflexivity. Qed.

(** On a mapping, the block on the social record raises exactly when
    ["social_status"] holds a value without [.get]. *)
Lemma read_context_Some ctx text_lower :
  read_context (Some ctx) text_lower =
  match ctx !! utf8 "social_status" with
  | None => Ok tt
  | Some v => if has_get v then Ok tt else Raise AttributeError
  end.
Proof.
  unfold read_context.
  destruct (ctx !! utf8 "social_status") as [v|] eqn:E.
  - assert (Hne : bool_decide (ctx = ∅) = false).
    { apply bool_decide_eq_false. intros ->. rewrite lookup_empty in E. discriminate. }
    rewrite Hne. simpl.
    destruct v; simpl; try reflexivity.
    destruct (truthy _ && _); reflexivity.
  - rewrite andb_false_r. reflexivity.
Qed.

Lemma read_context_ok context text_lower :
  context_ok context -> read_context context text_lower = Ok tt.
Proof.
  destruct context as [ctx|]; [| reflexivity].
  rewrite read_context_Some. unfold context_ok.
  destruct (ctx !! utf8 "social_status") as [[]|]; simpl; tauto.
Qed.

Lemma table_ok_DETECTION_PATTERNS : table_ok DETECTION_PATTERNS = true.
Proof. vm_compute. reflexivity. Qed.

Lemma detect_anomalies_closed text context :
  detect_anomalies text context =
  (read_context context (lower text) ≫= fun _ => Ok (findings DETECTION_PATTERNS text)).
Proof. apply detect_anomalies_with_ok, table_ok_DETECTION_PATTERNS. Qed.

Lemma detect_anomalies_None text :
  detect_anomalies text None = Ok (findings DETECTION_PATTERNS text).
Proof. rewrite detect_anomalies_closed. reflexivity. Qed.

Lemma detect_anomalies_context_ok text context :
  context_ok context ->
  detect_anomalies text context = Ok (findings DETECTION_PATTERNS text).
Proof.
  intros H. rewrite detect_anomalies_closed, (read_context_ok _ _ H). reflexivity.
Qed.

(** Whatever the context, a call that returns returns the findings. *)
Lemma detect_anomalies_Ok_inv text context out :
  detect_anomalies text context = Ok out -> out = findings DETECTION_PATTERNS text.
Proof.
  rewrite detect_anomalies_closed.
  destruct (read_context context (lower text)); simpl; congruence.
Qed.

(** The boolean tests are the declarative ones. *)
Lemma existsb_search_any_found ps s :
  forallb compiles ps = true ->
  existsb (fun p => Re.search (re p) s) ps = true <-> any_found ps s.
Proof.
  intros Hc. rewrite existsb_exists. unfold any_found. split.
  - intros (p & Hin & Hs). exists p, (re p). split; [apply list_elem_of_In; assumption |].
    rewrite forallb_forall in Hc. split; [apply compiles_re; auto |].
    apply ReFacts.search_spec. assumption.
  - intros (p & r & Hin & Hr & Hf). exists p. split; [apply list_elem_of_In; assumption |].
    unfold re. rewrite Hr. simpl. apply ReFacts.search_spec. assumption.
Qed.

Lemma rule_findings_fires text ps :
  rule_ok ps = true ->
  (fires ps text <-> rule_findings (lower text) ps = [make_anomaly (anomaly ps)]) /\
  (~ fires ps text <-> rule_findings (lower text) ps = []).
Proof.
  intros H. apply andb_true_iff in H as [Hb Hc].
  pose proof (existsb_search_any_found _ (lower text) Hb) as Eb.
  pose proof (existsb_search_any_found _ (lower text) Hc) as Ec.
  unfold fires, rule_findings.
  destruct (existsb _ (patterns ps)), (existsb _ (conflict_group ps)); simpl;
    (split; split; [intros H | intros H ..]); try reflexivity; try discriminate;
    try (exfalso; intuition congruence); intuition congruence.
Qed.

(** ** One finding per rule that fires *)

Lemma rule_findings_cases text_lower ps :
  rule_findings text_lower ps = [template ps] \/ rule_findings text_lower ps = [].
Proof. unfold rule_findings. destruct (_ && _); auto. Qed.

Lemma findings_templates table text a :
  a ∈ findings table text -> a ∈ map template table.
Proof.
  unfold findings. induction table as [|q table IH]; simpl; [trivial |].
  rewrite elem_of_app, elem_of_cons. intros [H|H]; [left | right; auto].
  destruct (rule_findings_cases (lower text) q) as [E|E]; rewrite E in H.
  - apply list_elem_of_singleton in H. assumption.
  - inversion H.
Qed.

Lemma count_occ_absent (l : list Anomaly) a :
  a ∉ l -> count_occ Anomaly_eq_dec l a = 0%nat.
Proof. intros H. apply count_occ_not_In. rewrite <- list_elem_of_In. assumption. Qed.

(** With pairwise distinct templates, a rule's template occurs in the
    findings as often as the rule itself contributed. *)
Lemma count_occ_findings table text ps :
  NoDup (map template table) ->
  ps ∈ table ->
  count_occ Anomaly_eq_dec (findings table text) (template ps) =
  length (rule_findings (lower text) ps).
Proof.
  unfold findings. induction table as [|q table IH]; simpl; intros Hnd Hin.
  - inversion Hin.
  - apply NoDup_cons in Hnd as [Hq Hnd]. rewrite count_occ_app.
    apply elem_of_cons in Hin as [->|Hin].
    + rewrite (count_occ_absent (flat_map _ table)).
      * rewrite Nat.add_0_r.
        destruct (rule_findings_cases (lower text) q) as [E|E]; rewrite E;
          [rewrite count_occ_cons_eq by reflexivity |]; reflexivity.
      * intros H. apply Hq. apply (findings_templates table text). assumption.
    + rewrite (IH Hnd Hin).
      assert (Hne : template q <> template ps).
      { intros E. apply Hq. rewrite E.
        apply list_elem_of_In, in_map, list_elem_of_In. assumption. }
      destruct (rule_findings_cases (lower text) q) as [E|E]; rewrite E;
        [rewrite count_occ_cons_neq by assumption |]; reflexivity.
Qed.

Lemma NoDup_templates : NoDup (map template DETECTION_PATTERNS).
Proof. apply (bool_decide_unpack _). vm_compute. exact I. Qed.

Lemma rule_ok_of_table table ps : table_ok table = true -> ps ∈ table -> rule_ok ps = true.
Proof.
  unfold table_ok. rewrite forallb_forall. intros H Hin. apply H, list_elem_of_In, Hin.
Qed.

(** C1: for every text and every rule of the table, the rule's template
    occurs exactly once among the findings if and only if one of the rule's
    base patterns and one pattern of its conflict group are found in the
    lowercased text, and does not occur otherwise; the findings are the same
    under every context under which the call returns. *)
Theorem detect_anomalies_one_finding_per_firing_rule (text : str) (ps : pattern_set) :
  ps ∈ DETECTION_PATTERNS ->
  exists out,
    detect_anomalies text None = Ok out /\
    (forall context out', detect_anomalies text context = Ok out' -> out' = out) /\
    (fires ps text <-> count_occ Anomaly_eq_dec out (make_anomaly (anomaly ps)) = 1%nat) /\
    (~ fires ps text <-> count_occ Anomaly_eq_dec out (make_anomaly (anomaly ps)) = 0%nat).
Proof.
  intros Hin. exists (findings DETECTION_PATTERNS text).
  split; [apply detect_anomalies_None |].
  split; [intros context out'; apply detect_anomalies_Ok_inv |].
  change (make_anomaly (anomaly ps)) with (template ps).
  rewrite (count_occ_findings _ text ps NoDup_templates Hin).
  pose proof (rule_ok_of_table _ _ table_ok_DETECTION_PATTERNS Hin) as Hok.
  destruct (rule_findings_fires text ps Hok) as [Hyes Hno].
  fold (template ps) in Hyes.
  fold (template ps) in Hno.
  destruct (rule_findings_cases (lower text) ps) as [E|E];
    rewrite E in Hyes, Hno |- *; simpl; intuition congruence.
Qed.

(** ** Lowercasing and concatenation

    [lower] is not a homomorphism for concatenation: whether a capital sigma
    becomes the final or the medial small sigma depends on its neighbours.
    It is one up to that choice, which no pattern of the table observes. *)

Section Sigma.
Import Unicode.

Lemma same_sigma_refl a : same_sigma a a.
Proof. left; reflexivity. Qed.

Lemma same_sigma_sym a b : same_sigma a b -> same_sigma b a.
Proof. unfold same_sigma. intuition. Qed.

Lemma Forall2_same_sigma_refl (s : str) : Forall2 same_sigma s s.
Proof. induction s; constructor; auto using same_sigma_refl. Qed.

Lemma Forall2_same_sigma_sym (s s' : str) :
  Forall2 same_sigma s s' -> Forall2 same_sigma s' s.
Proof. induction 1; constructor; auto using same_sigma_sym. Qed.

Lemma sigma_choice (b1 b2 : bool) :
  Forall2 same_sigma [if b1 then FINAL_SIGMA else SMALL_SIGMA]
                     [if b2 then FINAL_SIGMA else SMALL_SIGMA].
Proof. constructor; [| constructor]. right. destruct b1, b2; auto. Qed.

(** The look-behind only decides between the two sigmas. *)
Lemma lower_from_prev (s : str) (p1 p2 : bool) :
  Forall2 same_sigma (lower_from p1 s) (lower_from p2 s).
Proof.
  revert p1 p2. induction s as [|c s IH]; intros p1 p2; simpl; [constructor |].
  apply Forall2_app; [| apply IH].
  destruct (c =? CAPITAL_SIGMA);
    [apply sigma_choice | apply Forall2_same_sigma_refl].
Qed.

Lemma lower_from_app (a b : str) (p : bool) :
  Forall2 same_sigma (lower_from p (a ++ b)) (lower_from p a ++ lower_from false b).
Proof.
  revert p. induction a as [|c a IH]; intros p; simpl; [apply lower_from_prev |].
  rewrite <- app_assoc. apply Forall2_app; [| apply IH].
  destruct (c =? CAPITAL_SIGMA);
    [apply sigma_choice | apply Forall2_same_sigma_refl].
Qed.

Lemma lower_app (a b : str) :
  Forall2 same_sigma (lower a ++ lower b) (lower (a ++ b)).
Proof. apply Forall2_same_sigma_sym, lower_from_app. Qed.

Lemma charset_same_sigma cs a b :
  eqb (Re.charset_has cs SMALL_SIGMA) (Re.charset_has cs FINAL_SIGMA) = true ->
  same_sigma a b -> Re.charset_has cs a = Re.charset_has cs b.
Proof.
  intros H%eqb_prop [->|[[->| ->] [->| ->]]]; congruence.
Qed.

Lemma matches_same_sigma r s s' :
  sigma_blind r = true -> Re.matches r s -> Forall2 same_sigma s s' -> Re.matches r s'.
Proof.
  intros Hb Hm. revert s'.
  induction Hm as [|cs c Hc|r1 r2 s1 s2 _ IH1 _ IH2|r1 r2 s _ IH|r1 r2 s _ IH
                  |r|r s1 s2 _ IH1 _ IH2]; intros s' Hs; simpl in Hb.
  - apply Forall2_nil_inv_l in Hs as ->. constructor.
  - apply Forall2_cons_inv_l in Hs as (c' & t & Hcc & Ht & ->).
    apply Forall2_nil_inv_l in Ht as ->. constructor.
    rewrite <- (charset_same_sigma cs c c' Hb Hcc). assumption.
  - apply andb_true_iff in Hb as [Hb1 Hb2].
    apply Forall2_app_inv_l in Hs as (k1 & k2 & H1 & H2 & ->).
    constructor; auto.
  - apply andb_true_iff in Hb as [Hb1 Hb2]. apply Re.m_alt_l; auto.
  - apply andb_true_iff in Hb as [Hb1 Hb2]. apply Re.m_alt_r; auto.
  - apply Forall2_nil_inv_l in Hs as ->. constructor.
  - apply Forall2_app_inv_l in Hs as (k1 & k2 & H1 & H2 & ->).
    constructor; auto.
Qed.

Lemma found_same_sigma r s s' :
  sigma_blind r = true -> Re.found r s -> Forall2 same_sigma s s' -> Re.found r s'.
Proof.
  intros Hb (pre & m & post & -> & Hm) Hs.
  apply Forall2_app_inv_l in Hs as (pre' & k & Hpre & Hk & ->).
  apply Forall2_app_inv_l in Hk as (m' & post' & Hm' & Hpost & ->).
  exists pre', m', post'. split; [reflexivity |].
  apply (matches_same_sigma r m); assumption.
Qed.

Lemma found_app_l r s post : Re.found r s -> Re.found r (s ++ post).
Proof.
  intros (pre & m & post0 & -> & Hm). exists pre, m, (post0 ++ post).
  rewrite <- !app_assoc. auto.
Qed.

Lemma found_app_r r pre s : Re.found r s -> Re.found r (pre ++ s).
Proof.
  intros (pre0 & m & post & -> & Hm). exists (pre ++ pre0), m, post.
  rewrite <- !app_assoc. auto.
Qed.

(** What is found in the lowercase of a part is found in the lowercase of
    the whole. *)
Lemma found_lower_app_l r a b :
  sigma_blind r = true -> Re.found r (lower a) -> Re.found r (lower (a ++ b)).
Proof.
  intros Hb H. apply (found_same_sigma r (lower a ++ lower b)); [assumption | |].
  - apply found_app_l. assumption.
  - apply lower_app.
Qed.

Lemma found_lower_app_r r a b :
  sigma_blind r = true -> Re.found r (lower b) -> Re.found r (lower (a ++ b)).
Proof.
  intros Hb H. apply (found_same_sigma r (lower a ++ lower b)); [assumption | |].
  - apply found_app_r. assumption.
  - apply lower_app.
Qed.

End Sigma.

(** ** Findings survive concatenation *)

Lemma table_sigma_blind :
  forallb (fun ps => patterns_sigma_blind (patterns ps)
                     && patterns_sigma_blind (conflict_group ps))
          DETECTION_PATTERNS = true.
Proof. vm_compute. reflexivity. Qed.

Lemma any_found_lower_app ps a b :
  patterns_sigma_blind ps = true ->
  (any_found ps (lower a) -> any_found ps (lower (a ++ b))) /\
  (any_found ps (lower b) -> any_found ps (lower (a ++ b))).
Proof.
  unfold patterns_sigma_blind. rewrite forallb_forall. intros Hb.
  assert (Hr : forall p r, p ∈ ps -> Re.compile (utf8 p) = Some r -> sigma_blind r = true).
  { intros p r Hin Hr. apply list_elem_of_In, Hb in Hin. unfold re in Hin.
    rewrite Hr in Hin. assumption. }
  split; intros (p & r & Hin & Hc & Hf); exists p, r; (split; [assumption |]);
    (split; [assumption |]).
  - apply found_lower_app_l; eauto.
  - apply found_lower_app_r; eauto.
Qed.

Lemma fires_app ps a b :
  ps ∈ DETECTION_PATTERNS ->
  (fires ps a -> fires ps (a ++ b)) /\ (fires ps b -> fires ps (a ++ b)).
Proof.
  intros Hin. pose proof table_sigma_blind as H. rewrite forallb_forall in H.
  apply list_elem_of_In, H, andb_true_iff in Hin as [Hb Hc].
  destruct (any_found_lower_app _ a b Hb) as [Hbl Hbr].
  destruct (any_found_lower_app _ a b Hc) as [Hcl Hcr].
  unfold fires. split; intros [H1 H2]; split; auto.
Qed.

Lemma elem_of_findings_fires ps text :
  ps ∈ DETECTION_PATTERNS ->
  template ps ∈ findings DETECTION_PATTERNS text <-> fires ps text.
Proof.
  intros Hin.
  pose proof (rule_ok_of_table _ _ table_ok_DETECTION_PATTERNS Hin) as Hok.
  destruct (rule_findings_fires text ps Hok) as [Hyes _].
  rewrite list_elem_of_In, (count_occ_In Anomaly_eq_dec),
    (count_occ_findings _ text ps NoDup_templates Hin), Hyes.
  destruct (rule_findings_cases (lower text) ps) as [E|E]; rewrite E; simpl;
    split; intros; try reflexivity; try lia; discriminate.
Qed.

(** C7: when a text triggers a rule and a second text triggers a rule, the
    concatenation of the two texts triggers both: each finding that either
    part produces is among the findings of the whole document. *)
Theorem detect_anomalies_concatenation (text1 text2 : str) (ps1 ps2 : pattern_set)
    (context1 context2 : option (gmap str pyval)) (out1 out2 : list Anomaly) :
  ps1 ∈ DETECTION_PATTERNS ->
  ps2 ∈ DETECTION_PATTERNS ->
  detect_anomalies text1 context1 = Ok out1 ->
  make_anomaly (anomaly ps1) ∈ out1 ->
  detect_anomalies text2 context2 = Ok out2 ->
  make_anomaly (anomaly ps2) ∈ out2 ->
  exists out,
    detect_anomalies (text1 ++ text2) None = Ok out /\
    make_anomaly (anomaly ps1) ∈ out /\
    make_anomaly (anomaly ps2) ∈ out.
Proof.
  intros Hin1 Hin2 E1 H1 E2 H2.
  apply detect_anomalies_Ok_inv in E1 as ->.
  apply detect_anomalies_Ok_inv in E2 as ->.
  exists (findings DETECTION_PATTERNS (text1 ++ text2)).
  split; [apply detect_anomalies_None |].
  change (make_anomaly (anomaly ps1)) with (template ps1) in *.
  change (make_anomaly (anomaly ps2)) with (template ps2) in *.
  apply (elem_of_findings_fires ps1 text1 Hin1) in H1.
  apply (elem_of_findings_fires ps2 text2 Hin2) in H2.
  destruct (fires_app ps1 text1 text2 Hin1) as [Hl _].
  destruct (fires_app ps2 text1 text2 Hin2) as [_ Hr].
  split; apply elem_of_findings_fires; auto.
Qed.

(** ** Lowercase text holds no ASCII capital *)

Section LowerAscii.
Import Unicode.

Lemma lower_special_not_upper :
  forallb (fun e => forallb (fun c => negb (is_ascii_upper c)) (snd e)) lower_special = true.
Proof. vm_compute. reflexivity. Qed.

(** Every run of [lower_table] lands outside [A-Z]. *)
Lemma lower_table_not_upper :
  forallb (fun e => let '(lo, hi, _, target) := e in
                    (0x5A <? target) || (target + (hi - lo) <? 0x41)) lower_table = true.
Proof. vm_compute. reflexivity. Qed.

Lemma to_lower_full_not_upper c0 c :
  c ∈ to_lower_full c0 -> is_ascii_upper c = false.
Proof.
  unfold to_lower_full, to_full, assoc, map_run.
  destruct (find (fun e => fst e =? c0) lower_special) as [e|] eqn:Es.
  - intros Hc. apply find_some in Es as [Hin _].
    pose proof lower_special_not_upper as H. rewrite forallb_forall in H.
    apply H in Hin. rewrite forallb_forall in Hin.
    apply list_elem_of_In, Hin in Hc. apply negb_true_iff. assumption.
  - destruct (find (in_run c0) lower_table) as [[[[lo hi] step] target]|] eqn:Er.
    + intros Hc%list_elem_of_singleton. subst c.
      apply find_some in Er as [Hin Hrun].
      pose proof lower_table_not_upper as H. rewrite forallb_forall in H.
      apply H in Hin. unfold in_run in Hrun. unfold is_ascii_upper.
      apply andb_true_iff in Hrun as [Hrun _]. apply andb_true_iff in Hrun as [H1 H2].
      apply N.leb_le in H1, H2. apply andb_false_iff.
      apply orb_true_iff in Hin as [Hin|Hin]; apply N.ltb_lt in Hin.
      * right. apply N.leb_gt. lia.
      * left. apply N.leb_gt. lia.
    + intros Hc%list_elem_of_singleton. subst c.
      assert (Hin : In (0x41, 0x5A, 1, 0x61) lower_table) by (left; reflexivity).
      apply (find_none _ _ Er) in Hin. unfold in_run in Hin. unfold is_ascii_upper.
      rewrite N.mod_1_r in Hin. simpl in Hin. rewrite andb_true_r in Hin. assumption.
Qed.

Lemma lower_from_not_upper prev s c :
  c ∈ lower_from prev s -> is_ascii_upper c = false.
Proof.
  revert prev. induction s as [|c0 s IH]; intros prev; simpl.
  - intros H. inversion H.
  - rewrite elem_of_app. intros [H|H]; [| eapply IH; eassumption].
    destruct (c0 =? CAPITAL_SIGMA).
    + apply list_elem_of_singleton in H. subst c.
      destruct (prev && _); reflexivity.
    + eapply to_lower_full_not_upper; eassumption.
Qed.

Lemma lower_not_upper text c : c ∈ lower text -> is_ascii_upper c = false.
Proof. apply lower_from_not_upper. Qed.

End LowerAscii.

(** ** The base pattern [H36\.0] is dead *)

Lemma requires_matches c r m :
  requires c r = true -> Re.matches r m -> c ∈ m.
Proof.
  intros Hr Hm. induction Hm as [|cs x Hx|r1 r2 s1 s2 _ IH1 _ IH2|r1 r2 s _ IH
                                |r1 r2 s _ IH|r|r s1 s2 _ _ _ _]; simpl in Hr;
    try discriminate.
  - destruct cs; try discriminate. simpl in Hx.
    apply N.eqb_eq in Hr, Hx. subst. apply list_elem_of_here.
  - rewrite elem_of_app. apply orb_true_iff in Hr as [Hr|Hr]; auto.
  - apply andb_true_iff in Hr as [Hr _]. auto.
  - apply andb_true_iff in Hr as [_ Hr]. auto.
Qed.

Lemma requires_found c r s : requires c r = true -> Re.found r s -> c ∈ s.
Proof.
  intros Hr (pre & m & post & -> & Hm).
  rewrite !elem_of_app. right. left. eapply requires_matches; eassumption.
Qed.

(** A pattern that needs an ASCII capital finds nothing in lowercase text. *)
Lemma search_lower_capital c p text :
  is_ascii_upper c = true -> requires c (re p) = true ->
  Re.search (re p) (lower text) = false.
Proof.
  intros Hu Hr. destruct (Re.search (re p) (lower text)) eqn:E; [| reflexivity].
  apply ReFacts.search_spec in E. apply (requires_found c) in E; [| assumption].
  apply lower_not_upper in E. congruence.
Qed.

Lemma existsb_filter_dead (f : string -> bool) (p : string) (l : list string) :
  f p = false -> existsb f (filter (fun q => q <> p) l) = existsb f l.
Proof.
  intros Hp. induction l as [|q l IH]; [reflexivity |].
  rewrite filter_cons. destruct (decide (q <> p)) as [Hne|He]; simpl.
  - rewrite IH. reflexivity.
  - apply dec_stable in He. subst q. rewrite Hp, IH. reflexivity.
Qed.

Lemma rule_findings_drop_dead text_lower p ps :
  Re.search (re p) text_lower = false ->
  rule_findings text_lower (drop_base_pattern p ps) = rule_findings text_lower ps.
Proof.
  intros Hp. unfold rule_findings.
  change (conflict_group (drop_base_pattern p ps)) with (conflict_group ps).
  change (patterns (drop_base_pattern p ps)) with (filter (fun q => q <> p) (patterns ps)).
  change (anomaly (drop_base_pattern p ps)) with (anomaly ps).
  rewrite (existsb_filter_dead (fun q => Re.search (re q) text_lower) p _ Hp).
  reflexivity.
Qed.

Lemma findings_drop_dead table text p :
  Re.search (re p) (lower text) = false ->
  findings (map (drop_base_pattern p) table) text = findings table text.
Proof.
  intros Hp. unfold findings. induction table as [|ps table IH]; simpl; [reflexivity |].
  rewrite (rule_findings_drop_dead _ _ _ Hp), IH. reflexivity.
Qed.

Lemma forallb_filter_sub (f : string -> bool) (p : string) (l : list string) :
  forallb f l = true -> forallb f (filter (fun q => q <> p) l) = true.
Proof.
  induction l as [|q l IH]; [reflexivity |]. simpl. intros [Hq Hl]%andb_true_iff.
  rewrite filter_cons. destruct (decide (q <> p)); simpl; [rewrite Hq |]; auto.
Qed.

Lemma table_ok_drop table p :
  table_ok table = true -> table_ok (map (drop_base_pattern p) table) = true.
Proof.
  unfold table_ok. induction table as [|ps table IH]; [reflexivity |]. simpl.
  intros [Hps Ht]%andb_true_iff. rewrite (IH Ht), andb_true_r.
  unfold rule_ok in *. apply andb_true_iff in Hps as [Hb Hc].
  change (conflict_group (drop_base_pattern p ps)) with (conflict_group ps).
  rewrite Hc, andb_true_r. apply forallb_filter_sub. assumption.
Qed.

(** C9: the base pattern [H36\.0] of the first rule is never found, since a
    lowercased text holds no capital [H]; striking the pattern out of the
    table leaves [detect_anomalies] unchanged on every text and context. *)
Theorem H36_pattern_never_matches :
  "H36\.0" ∈ patterns rule_blind_patient /\
  map patterns (map (drop_base_pattern "H36\.0") DETECTION_PATTERNS) =
    [ "retinopat"; "slep"; "vid.*ostecen"; "dijabeti.*retinopat" ]
    :: map patterns (tail DETECTION_PATTERNS) /\
  (forall text, re_search "H36\.0" (lower text) = Ok false) /\
  (forall text context,
     detect_anomalies_with (map (drop_base_pattern "H36\.0") DETECTION_PATTERNS)
                           text context
     = detect_anomalies text context).
Proof.
  assert (Hdead : forall text, Re.search (re "H36\.0") (lower text) = false).
  { intros text. apply (search_lower_capital 0x48); vm_compute; reflexivity. }
  split; [| split; [| split]].
  - unfold rule_blind_patient. simpl. do 3 apply list_elem_of_further.
    apply list_elem_of_here.
  - vm_compute. reflexivity.
  - intros text. rewrite re_search_ok by (vm_compute; reflexivity).
    rewrite Hdead. reflexivity.
  - intros text context. unfold detect_anomalies.
    rewrite !detect_anomalies_with_ok
      by auto using table_ok_drop, table_ok_DETECTION_PATTERNS.
    rewrite (findings_drop_dead _ _ _ (Hdead text)). reflexivity.
Qed.

(** ** Uppercase input *)

Section CaseFolding.
Import Unicode.

Lemma lower_from_no_sigma prev (s : str) :
  Forall (fun c => (c =? CAPITAL_SIGMA) = false) s ->
  lower_from prev s = flat_map to_lower_full s.
Proof.
  intros H. revert prev. induction H as [|c s Hc _ IH]; intros prev; simpl.
  - reflexivity.
  - rewrite Hc, IH. reflexivity.
Qed.

Lemma latin_table :
  forallb (fun c => implb (latin_stable c) (latin_check c))
          (map N.of_nat (seq 0 0x180)) = true.
Proof. vm_compute. reflexivity. Qed.

Lemma latin_stable_check c : latin_stable c = true -> latin_check c = true.
Proof.
  intros H. pose proof latin_table as T. rewrite forallb_forall in T.
  assert (Hlt : c < 0x180).
  { unfold latin_stable in H. apply andb_true_iff in H as [H _].
    apply N.ltb_lt. assumption. }
  specialize (T c). rewrite H in T. apply T.
  apply in_map_iff. exists (N.to_nat c). split; [apply N2Nat.id |].
  apply in_seq. lia.
Qed.

Lemma forallb_Forall_true (f : N -> bool) (l : str) :
  forallb f l = true -> Forall (fun c => f c = true) l.
Proof.
  induction l as [|c l IH]; simpl; [constructor |].
  intros [Hc Hl]%andb_true_iff. constructor; auto.
Qed.

Lemma forallb_not_sigma (l : str) :
  forallb (fun u => negb (u =? CAPITAL_SIGMA)) l = true ->
  Forall (fun c => (c =? CAPITAL_SIGMA) = false) l.
Proof.
  rewrite forallb_forall. intros H. apply Forall_forall. intros c Hc.
  apply negb_true_iff, H, list_elem_of_In, Hc.
Qed.

Lemma flat_map_no_sigma (f : N -> list N) (s : str) :
  Forall (fun c => Forall (fun u => (u =? CAPITAL_SIGMA) = false) (f c)) s ->
  Forall (fun c => (c =? CAPITAL_SIGMA) = false) (flat_map f s).
Proof.
  induction 1 as [|c s Hc _ IH]; simpl; [constructor |].
  apply Forall_app. auto.
Qed.

Lemma flat_map_flat_map (f g : N -> list N) (s : str) :
  flat_map g (flat_map f s) = flat_map (fun c => flat_map g (f c)) s.
Proof.
  induction s as [|c s IH]; simpl; [reflexivity |].
  rewrite flat_map_app, IH. reflexivity.
Qed.

Lemma flat_map_ext_Forall (f g : N -> list N) (s : str) :
  Forall (fun c => f c = g c) s -> flat_map f s = flat_map g s.
Proof. induction 1 as [|c s Hc _ IH]; simpl; congruence. Qed.

(** On Latin text, lowercasing forgets a previous change of case. *)
Lemma lower_upper_latin (text : str) :
  Forall (fun c => latin_stable c = true) text ->
  lower (upper text) = lower text /\ lower (lower text) = lower text.
Proof.
  intros H.
  assert (Hc : Forall (fun c => latin_check c = true) text).
  { eapply Forall_impl; [exact H |]. exact latin_stable_check. }
  clear H. unfold latin_check in Hc.
  assert (Hs : Forall (fun c => (c =? CAPITAL_SIGMA) = false) text).
  { eapply Forall_impl; [exact Hc |]. simpl. intros c Hcc.
    repeat apply andb_true_iff in Hcc as [Hcc _]. apply negb_true_iff. assumption. }
  assert (Hu : Forall (fun c => (c =? CAPITAL_SIGMA) = false) (upper text)).
  { apply flat_map_no_sigma. eapply Forall_impl; [exact Hc |]. simpl. intros c Hcc.
    do 3 apply andb_true_iff in Hcc as [Hcc _]. apply andb_true_iff in Hcc as [_ Hcc].
    apply forallb_not_sigma. assumption. }
  assert (Hl : Forall (fun c => (c =? CAPITAL_SIGMA) = false) (flat_map to_lower_full text)).
  { apply flat_map_no_sigma. eapply Forall_impl; [exact Hc |]. simpl. intros c Hcc.
    do 2 apply andb_true_iff in Hcc as [Hcc _]. apply andb_true_iff in Hcc as [_ Hcc].
    apply forallb_not_sigma. assumption. }
  unfold lower. rewrite (lower_from_no_sigma _ text Hs). split.
  - rewrite (lower_from_no_sigma _ _ Hu). unfold upper. rewrite flat_map_flat_map.
    apply flat_map_ext_Forall. eapply Forall_impl; [exact Hc |]. simpl. intros c Hcc.
    apply andb_true_iff in Hcc as [Hcc _]. apply andb_true_iff in Hcc as [_ Hcc].
    apply bool_decide_eq_true in Hcc. assumption.
  - rewrite (lower_from_no_sigma _ _ Hl), flat_map_flat_map.
    apply flat_map_ext_Forall. eapply Forall_impl; [exact Hc |]. simpl. intros c Hcc.
    apply andb_true_iff in Hcc as [_ Hcc].
    apply bool_decide_eq_true in Hcc. assumption.
Qed.

End CaseFolding.

(** The findings depend on the text through its lowercase form only. *)
Lemma detect_anomalies_lower text text' context :
  lower text = lower text' ->
  detect_anomalies text context = detect_anomalies text' context.
Proof.
  intros H. unfold detect_anomalies, detect_anomalies_with. rewrite H. reflexivity.
Qed.

(** C6, as the code has it: on a text of Basic Latin, Latin-1 and Latin
    Extended-A code points other than the micro sign, sharp s, dotless i,
    n preceded by apostrophe and long s (all Serbian Latin text is such a
    text), the uppercase version, the original and the lowercase version
    give the same result under every context. *)
Theorem detect_anomalies_uppercase_latin (text : str) (context : option (gmap str pyval)) :
  Forall (fun c => latin_stable c = true) text ->
  detect_anomalies (upper text) context = detect_anomalies text context /\
  detect_anomalies (upper text) context = detect_anomalies (lower text) context.
Proof.
  intros H. destruct (lower_upper_latin text H) as [Hu Hl]. split.
  - apply detect_anomalies_lower. assumption.
  - apply detect_anomalies_lower. congruence.
Qed.

(** C6 fails on long s: [upper] turns it into [S], which lowercases to the
    [s] that the patterns look for, while [lower] leaves long s alone. *)
Lemma detect_anomalies_uppercase_long_s :
  upper (utf8 "ſlep upis") = utf8 "SLEP UPIS" /\
  detect_anomalies (utf8 "ſlep upis") None = Ok [] /\
  detect_anomalies (upper (utf8 "ſlep upis")) None
  = Ok [make_anomaly (anomaly rule_blind_patient)] /\
  detect_anomalies (upper (utf8 "ſlep upis")) None
  <> detect_anomalies (utf8 "ſlep upis") None.
Proof. vm_compute. repeat split. discriminate. Qed.

(** The example [critical_hypoglycemia] is Latin text in this sense. *)
Lemma detect_anomalies_uppercase_latin_witness :
  Forall (fun c => latin_stable c = true) example_critical_hypoglycemia /\
  detect_anomalies (upper example_critical_hypoglycemia) None
  = detect_anomalies example_critical_hypoglycemia None /\
  detect_anomalies (upper example_critical_hypoglycemia) None
  = detect_anomalies (lower example_critical_hypoglycemia) None.
Proof.
  assert (H : Forall (fun c => latin_stable c = true) example_critical_hypoglycemia).
  { apply forallb_Forall_true. vm_compute. reflexivity. }
  split; [exact H |].
  apply (detect_anomalies_uppercase_latin example_critical_hypoglycemia None H).
Defined.

(** ** The example documents *)

(** C2, as the code has it: on the example [critical_hypoglycemia] the only
    finding is the one of the rule on care that was not provided.  The rule
    on hypoglycemia does not fire: its value patterns ask for a decimal
    point, the document writes [0,7 mmol/L] with a decimal comma, and the
    word [hipoglikemij] does not occur in the text. *)
Theorem detect_anomalies_critical_hypoglycemia :
  detect_anomalies example_critical_hypoglycemia None
  = Ok [make_anomaly (anomaly rule_care_not_provided)] /\
  any_search (patterns rule_hypoglycemia) (lower example_critical_hypoglycemia)
  = Ok false /\
  any_search (conflict_group rule_hypoglycemia) (lower example_critical_hypoglycemia)
  = Ok true.
Proof. vm_compute. repeat split. Qed.

(** The three other examples give what [get_examples] announces. *)
Lemma detect_anomalies_examples :
  detect_anomalies example_blind_patient_instructions None
  = Ok [make_anomaly (anomaly rule_blind_patient)] /\
  detect_anomalies example_social_conflict None
  = Ok [make_anomaly (anomaly rule_social_conflict)] /\
  detect_anomalies example_normal_document None = Ok [].
Proof. vm_compute. repeat split. Qed.

(** With a decimal point in place of the comma the rule on hypoglycemia
    fires as well. *)
Lemma detect_anomalies_decimal_point :
  detect_anomalies (utf8 "glikemijom 0.7 mmol/L, u skladu sa dobrom praksom") None
  = Ok [make_anomaly (anomaly rule_hypoglycemia)].
Proof. vm_compute. reflexivity. Qed.

(** The rule on care that was not provided, on the example it fires on. *)
Lemma detect_anomalies_one_finding_witness :
  rule_care_not_provided ∈ DETECTION_PATTERNS /\
  exists out,
    detect_anomalies example_critical_hypoglycemia None = Ok out /\
    (forall context out',
       detect_anomalies example_critical_hypoglycemia context = Ok out' -> out' = out) /\
    (fires rule_care_not_provided example_critical_hypoglycemia <->
     count_occ Anomaly_eq_dec out (make_anomaly (anomaly rule_care_not_provided)) = 1%nat) /\
    (~ fires rule_care_not_provided example_critical_hypoglycemia <->
     count_occ Anomaly_eq_dec out (make_anomaly (anomaly rule_care_not_provided)) = 0%nat).
Proof.
  assert (H : rule_care_not_provided ∈ DETECTION_PATTERNS).
  { unfold DETECTION_PATTERNS. do 2 apply list_elem_of_further. apply list_elem_of_here. }
  split; [exact H |].
  apply (detect_anomalies_one_finding_per_firing_rule
           example_critical_hypoglycemia rule_care_not_provided H).
Defined.

(** The example of the blind patient followed by the one of the social
    conflict. *)
Lemma detect_anomalies_concatenation_witness :
  rule_blind_patient ∈ DETECTION_PATTERNS /\
  rule_social_conflict ∈ DETECTION_PATTERNS /\
  detect_anomalies example_blind_patient_instructions None
  = Ok [make_anomaly (anomaly rule_blind_patient)] /\
  detect_anomalies example_social_conflict None
  = Ok [make_anomaly (anomaly rule_social_conflict)] /\
  exists out,
    detect_anomalies (example_blind_patient_instructions ++ example_social_conflict) None
    = Ok out /\
    make_anomaly (anomaly rule_blind_patient) ∈ out /\
    make_anomaly (anomaly rule_social_conflict) ∈ out.
Proof.
  assert (H1 : rule_blind_patient ∈ DETECTION_PATTERNS).
  { unfold DETECTION_PATTERNS. apply list_elem_of_here. }
  assert (H2 : rule_social_conflict ∈ DETECTION_PATTERNS).
  { unfold DETECTION_PATTERNS. do 3 apply list_elem_of_further. apply list_elem_of_here. }
  assert (E1 : detect_anomalies example_blind_patient_instructions None
               = Ok [make_anomaly (anomaly rule_blind_patient)]).
  { vm_compute. reflexivity. }
  assert (E2 : detect_anomalies example_social_conflict None
               = Ok [make_anomaly (anomaly rule_social_conflict)]).
  { vm_compute. reflexivity. }
  repeat (split; [assumption |]).
  apply (detect_anomalies_concatenation
           example_blind_patient_instructions example_social_conflict
           rule_blind_patient rule_social_conflict None None _ _ H1 H2 E1
           (list_elem_of_here _ _) E2 (list_elem_of_here _ _)).
Defined.

(** ** The context *)


(** The contexts the schema names: none, empty, and a social record. *)
Lemma context_ok_examples :
  context_ok None /\
  context_ok (Some ∅) /\
  context_ok (Some {[ utf8 "social_status" :=
                        PyDict {[ utf8 "lives_alone" := PyBool true ]} ]}) /\
  context_ok (Some {[ utf8 "social_status" := PyDict ∅ ]}) /\
  context_ok (Some {[ utf8 "age" := PyInt 70 ]}).
Proof. vm_compute. repeat split. Qed.


(** C8: on every text [detect_anomalies] returns a list of findings, under
    no context and under every context of the request schema; on the empty
    text the list is empty. *)
Theorem detect_anomalies_total :
  (forall text, exists out, detect_anomalies text None = Ok out) /\
  (forall text context, context_ok context ->
     exists out, detect_anomalies text context = Ok out) /\
  detect_anomalies [] None = Ok [].
Proof.
  split; [| split].
  - intros text. eexists. apply detect_anomalies_None.
  - intros text context H. eexists. apply detect_anomalies_context_ok, H.
  - vm_compute. reflexivity.
Qed.

(** C10: when the context is a mapping whose ["social_status"] holds a
    value without [.get] (nothing but a mapping has one: not [None], not a
    string, not a list), the call raises [AttributeError] on every text; it
    returns a list of findings when the context is [None], lacks the key or
    maps it to a mapping. *)
Theorem detect_anomalies_social_status (text : str) (context : option (gmap str pyval)) :
  (forall ctx v,
     context = Some ctx -> ctx !! utf8 "social_status" = Some v -> has_get v = false ->
     detect_anomalies text context = Raise AttributeError) /\
  (context = None \/
   (exists ctx, context = Some ctx /\
      (ctx !! utf8 "social_status" = None \/
       exists social, ctx !! utf8 "social_status" = Some (PyDict social))) ->
   exists out, detect_anomalies text context = Ok out) /\
  has_get PyNone = false /\
  (forall s, has_get (PyStr s) = false) /\
  (forall l, has_get (PyList l) = false) /\
  (forall d, has_get (PyDict d) = true).
Proof.
  split; [| split; [| repeat split]].
  - intros ctx v -> Hv Hg. rewrite detect_anomalies_closed, read_context_Some, Hv, Hg.
    reflexivity.
  - intros H. exists (findings DETECTION_PATTERNS text).
    apply detect_anomalies_context_ok.
    destruct H as [->|(ctx & -> & [Hn|(social & Hs)])]; simpl; [exact I | |].
    + rewrite Hn. exact I.
    + rewrite Hs. exact I.
Qed.

(** A string where the social record should be. *)
Lemma detect_anomalies_social_status_witness :
  detect_anomalies example_social_conflict
    (Some {[ utf8 "social_status" := PyStr (utf8 "lives alone") ]})
  = Raise AttributeError.
Proof.
  apply (proj1 (detect_anomalies_social_status _ _) _ (PyStr (utf8 "lives alone")) eq_refl);
    vm_compute; reflexivity.
Defined.

(** ** The response *)

(** C3: in every response the confidence is 0.95 exactly when the list of
    anomalies is non-empty, that is when [anomalies_found] is positive, and
    0.85 exactly when it is empty; it takes no other value. *)
Theorem analyze_document_confidence (env : environment) (request : AnalysisRequest)
    (effects : list effect) (response : AnalysisResponse) :
  analyze_document env request = Ok (effects, response) ->
  anomalies_found response = length (anomalies response) /\
  (confidence response = 0.95%Q <-> anomalies response <> []) /\
  (confidence response = 0.95%Q <-> (0 < anomalies_found response)%nat) /\
  (confidence response = 0.85%Q <-> anomalies response = []) /\
  (confidence response = 0.95%Q \/ confidence response = 0.85%Q).
Proof.
  unfold analyze_document.
  destruct (detect_anomalies _ _) as [out|e]; [| discriminate].
  rewrite bind_Ok. destruct (elapsed_ms env <? 100)%Z; intros [= <- <-]; simpl;
    destruct out; simpl; repeat split; intros; auto; try discriminate;
    try congruence; try lia.
Qed.

(** A call on the example [critical_hypoglycemia]. *)
Lemma analyze_document_confidence_witness :
  let env := {| elapsed_ms := 3; uuid4 := "00000000-0000-4000-8000-000000000000";
                utcnow_isoformat := "2024-01-01T00:00:00" |} in
  let request := {| document_text := example_critical_hypoglycemia;
                    document_type := Some "medical";
                    patient_context := None |} in
  exists effects response,
    analyze_document env request = Ok (effects, response) /\
    anomalies_found response = length (anomalies response) /\
    (confidence response = 0.95%Q <-> anomalies response <> []) /\
    (confidence response = 0.95%Q <-> (0 < anomalies_found response)%nat) /\
    (confidence response = 0.85%Q <-> anomalies response = []) /\
    (confidence response = 0.95%Q \/ confidence response = 0.85%Q).
Proof.
  intros env request.
  assert (E : exists effects response, analyze_document env request = Ok (effects, response)).
  { eexists _, _. vm_compute. reflexivity. }
  destruct E as (effects & response & E). exists effects, response.
  split; [exact E |].
  apply (analyze_document_confidence env request effects response E).
Defined.

(** C4, as the code has it: when the measured time is not negative, the
    reported [processing_time_ms] is at least 100; below 100 the call sleeps
    for a tenth of a second and reports 100 more than it measured, from 100
    on it reports what it measured without sleeping. *)
Theorem analyze_document_processing_time (env : environment) (request : AnalysisRequest)
    (effects : list effect) (response : AnalysisResponse) :
  (0 <= elapsed_ms env)%Z ->
  analyze_document env request = Ok (effects, response) ->
  (100 <= processing_time_ms response)%Z /\
  ((elapsed_ms env < 100)%Z ->
   effects = [Sleep 0.1] /\ processing_time_ms response = (100 + elapsed_ms env)%Z) /\
  ((100 <= elapsed_ms env)%Z ->
   effects = [] /\ processing_time_ms response = elapsed_ms env).
Proof.
  intros Hpos. unfold analyze_document.
  destruct (detect_anomalies _ _) as [out|e]; [| discriminate].
  rewrite bind_Ok. destruct (elapsed_ms env <? 100)%Z eqn:E; intros [= <- <-]; simpl;
    [apply Z.ltb_lt in E | apply Z.ltb_ge in E]; repeat split; intros; auto; lia.
Qed.

(** C4 fails when the wall clock is set back during the call: [time.time]
    is not monotonic, the measured time is then negative, and 100 more than
    it stays below 100. *)
Lemma analyze_document_clock_set_back :
  match analyze_document
          {| elapsed_ms := -50; uuid4 := "00000000-0000-4000-8000-000000000000";
             utcnow_isoformat := "2024-01-01T00:00:00" |}
          {| document_text := example_normal_document;
             document_type := Some "medical";
             patient_context := None |}
  with
  | Ok (effects, response) =>
      effects = [Sleep 0.1] /\ processing_time_ms response = 50%Z /\
      (processing_time_ms response < 100)%Z
  | Raise _ => False
  end.
Proof. vm_compute. repeat split. Qed.

(** A call that measured three milliseconds. *)
Lemma analyze_document_processing_time_witness :
  let env := {| elapsed_ms := 3; uuid4 := "00000000-0000-4000-8000-000000000000";
                utcnow_isoformat := "2024-01-01T00:00:00" |} in
  let request := {| document_text := example_normal_document;
                    document_type := Some "medical";
                    patient_context := None |} in
  (0 <= elapsed_ms env)%Z /\
  exists effects response,
    analyze_document env request = Ok (effects, response) /\
    (100 <= processing_time_ms response)%Z /\
    ((elapsed_ms env < 100)%Z ->
     effects = [Sleep 0.1] /\ processing_time_ms response = (100 + elapsed_ms env)%Z) /\
    ((100 <= elapsed_ms env)%Z ->
     effects = [] /\ processing_time_ms response = elapsed_ms env).
Proof.
  intros env request.
  assert (Hpos : (0 <= elapsed_ms env)%Z) by (vm_compute; discriminate).
  split; [exact Hpos |].
  assert (E : exists effects response, analyze_document env request = Ok (effects, response)).
  { eexists _, _. vm_compute. reflexivity. }
  destruct E as (effects & response & E). exists effects, response.
  split; [exact E |].
  apply (analyze_document_processing_time env request effects response Hpos E).
Defined.

(** * Further properties of the engine *)

(** ** Order, multiplicity and growth of the findings *)

Lemma rule_findings_sublist text_lower ps :
  rule_findings text_lower ps `sublist_of` [template ps].
Proof.
  destruct (rule_findings_cases text_lower ps) as [-> | ->];
    [reflexivity | apply sublist_nil_l].
Qed.

Lemma findings_sublist_templates table text :
  findings table text `sublist_of` map template table.
Proof.
  unfold findings. induction table as [|ps table IH]; simpl; [constructor |].
  change (template ps :: map template table) with ([template ps] ++ map template table).
  apply sublist_app; [apply rule_findings_sublist | exact IH].
Qed.

(** The findings come in the order of the rule table, each rule at most
    once: the result is a subsequence of the five templates. *)
Theorem detect_anomalies_table_order (text : str) (context : option (gmap str pyval))
    (out : list Anomaly) :
  detect_anomalies text context = Ok out ->
  out `sublist_of` map (fun ps => make_anomaly (anomaly ps)) DETECTION_PATTERNS /\
  NoDup out /\
  (length out <= 5)%nat.
Proof.
  intros ->%detect_anomalies_Ok_inv.
  pose proof (findings_sublist_templates DETECTION_PATTERNS text) as H.
  split; [exact H |]. split.
  - apply (sublist_NoDup _ _ NoDup_templates H).
  - apply sublist_length in H. exact H.
Qed.

(** The example of the social conflict followed by the one of the blind
    patient: the findings come in the order of the table, not in the order
    of the document. *)
Lemma detect_anomalies_table_order_witness :
  detect_anomalies (example_social_conflict ++ example_blind_patient_instructions) None
  = Ok [make_anomaly (anomaly rule_blind_patient);
        make_anomaly (anomaly rule_social_conflict)] /\
  [make_anomaly (anomaly rule_blind_patient); make_anomaly (anomaly rule_social_conflict)]
    `sublist_of` map (fun ps => make_anomaly (anomaly ps)) DETECTION_PATTERNS /\
  NoDup [make_anomaly (anomaly rule_blind_patient);
         make_anomaly (anomaly rule_social_conflict)] /\
  (length [make_anomaly (anomaly rule_blind_patient);
           make_anomaly (anomaly rule_social_conflict)] <= 5)%nat.
Proof.
  assert (E : detect_anomalies
                (example_social_conflict ++ example_blind_patient_instructions) None
              = Ok [make_anomaly (anomaly rule_blind_patient);
                    make_anomaly (anomaly rule_social_conflict)]).
  { vm_compute. reflexivity. }
  split; [exact E |].
  apply (detect_anomalies_table_order _ None _ E).
Defined.

Lemma fires_extend ps pre text post :
  ps ∈ DETECTION_PATTERNS -> fires ps text -> fires ps (pre ++ text ++ post).
Proof.
  intros Hin H.
  destruct (fires_app ps pre (text ++ post) Hin) as [_ Hr].
  destruct (fires_app ps text post Hin) as [Hl _]. auto.
Qed.

Lemma findings_extend_sublist table pre text post :
  (forall ps, ps ∈ table -> ps ∈ DETECTION_PATTERNS) ->
  findings table text `sublist_of` findings table (pre ++ text ++ post).
Proof.
  unfold findings. induction table as [|ps table IH]; intros Hsub; simpl; [constructor |].
  apply sublist_app; [| apply IH; intros q Hq; apply Hsub; right; exact Hq].
  assert (Hin : ps ∈ DETECTION_PATTERNS) by (apply Hsub; left).
  pose proof (rule_ok_of_table _ _ table_ok_DETECTION_PATTERNS Hin) as Hok.
  destruct (rule_findings_cases (lower text) ps) as [E|E]; rewrite E;
    [| apply sublist_nil_l].
  destruct (rule_findings_fires text ps Hok) as [Hy _].
  destruct (rule_findings_fires (pre ++ text ++ post) ps Hok) as [Hy' _].
  apply Hy, (fires_extend ps pre text post Hin), Hy' in E. rewrite E. reflexivity.
Qed.

(** Text added before or after a document never removes a finding: the
    findings of the document are a subsequence of the findings of the
    longer one. *)
Theorem detect_anomalies_extension (pre text post : str)
    (context : option (gmap str pyval)) (out : list Anomaly) :
  detect_anomalies text context = Ok out ->
  exists out',
    detect_anomalies (pre ++ text ++ post) context = Ok out' /\
    out `sublist_of` out'.
Proof.
  intros E. pose proof E as ->%detect_anomalies_Ok_inv.
  exists (findings DETECTION_PATTERNS (pre ++ text ++ post)). split.
  - rewrite detect_anomalies_closed in E |- *.
    destruct (read_context context (lower text)) as [[]|e] eqn:Ec; [| discriminate].
    destruct context as [ctx|]; [| reflexivity].
    rewrite read_context_Some in Ec |- *. rewrite Ec. reflexivity.
  - apply findings_extend_sublist. auto.
Qed.

(** The example on care that was not provided, under a title and a
    signature. *)
Lemma detect_anomalies_extension_witness :
  detect_anomalies example_critical_hypoglycemia None
  = Ok [make_anomaly (anomaly rule_care_not_provided)] /\
  exists out',
    detect_anomalies (utf8 "Retinopathia diabetica. " ++ example_critical_hypoglycemia
                      ++ utf8 " Potpis: da upiše lekar.") None = Ok out' /\
    [make_anomaly (anomaly rule_care_not_provided)] `sublist_of` out'.
Proof.
  assert (E : detect_anomalies example_critical_hypoglycemia None
              = Ok [make_anomaly (anomaly rule_care_not_provided)]).
  { vm_compute. reflexivity. }
  split; [exact E |].
  apply (detect_anomalies_extension (utf8 "Retinopathia diabetica. ")
           example_critical_hypoglycemia (utf8 " Potpis: da upiše lekar.") None _ E).
Defined.

(** ** Exceptions *)

(** [detect_anomalies] raises nothing but [AttributeError], and only on a
    mapping context whose ["social_status"] holds a value without [.get];
    no text makes a pattern fail and no rule is read by a key it lacks. *)
Theorem detect_anomalies_raises_iff (text : str) (context : option (gmap str pyval))
    (e : exn) :
  detect_anomalies text context = Raise e <->
  e = AttributeError /\
  exists ctx v,
    context = Some ctx /\ ctx !! utf8 "social_status" = Some v /\ has_get v = false.
Proof.
  rewrite detect_anomalies_closed. destruct context as [ctx|].
  - rewrite read_context_Some.
    destruct (ctx !! utf8 "social_status") as [v|] eqn:Ev; simpl.
    + destruct (has_get v) eqn:Eg; simpl; split.
      * discriminate.
      * intros (_ & ctx' & v' & [= <-] & Hv & Hg). congruence.
      * intros [= <-]. split; [reflexivity |]. exists ctx, v. auto.
      * intros [-> _]. reflexivity.
    + split; [discriminate |].
      intros (_ & ctx' & v' & [= <-] & Hv & _). congruence.
  - simpl. split; [discriminate |]. intros (_ & ctx & v & H & _). discriminate.
Qed.

(** ** The response and the environment *)

(** The findings part of a response (the list, its count, the confidence
    and the model name) depends on the document text and the context only:
    not on [document_type], not on the clock, not on the identifier drawn. *)
Theorem analyze_document_findings_independent (env1 env2 : environment)
    (request1 request2 : AnalysisRequest) :
  document_text request1 = document_text request2 ->
  patient_context request1 = patient_context request2 ->
  match analyze_document env1 request1, analyze_document env2 request2 with
  | Ok (_, response1), Ok (_, response2) =>
      anomalies response1 = anomalies response2 /\
      anomalies_found response1 = anomalies_found response2 /\
      confidence response1 = confidence response2 /\
      model_used response1 = model_used response2
  | Raise e1, Raise e2 => e1 = e2
  | _, _ => False
  end.
Proof.
  intros Ht Hc. unfold analyze_document. rewrite Ht, Hc.
  destruct (detect_anomalies _ _) as [out|e]; [| reflexivity].
  rewrite !bind_Ok.
  destruct (elapsed_ms env1 <? 100)%Z, (elapsed_ms env2 <? 100)%Z; simpl; auto.
Qed.

(** Two calls on the example of the social conflict, at different times
    and under different document types. *)
Lemma analyze_document_findings_independent_witness :
  let env1 := {| elapsed_ms := 3; uuid4 := "00000000-0000-4000-8000-000000000001";
                 utcnow_isoformat := "2024-01-01T00:00:00" |} in
  let env2 := {| elapsed_ms := 250; uuid4 := "00000000-0000-4000-8000-000000000002";
                 utcnow_isoformat := "2025-06-30T12:00:00.5" |} in
  let request1 := {| document_text := example_social_conflict;
                     document_type := Some "medical"; patient_context := None |} in
  let request2 := {| document_text := example_social_conflict;
                     document_type := None; patient_context := None |} in
  document_text request1 = document_text request2 /\
  patient_context request1 = patient_context request2 /\
  match analyze_document env1 request1, analyze_document env2 request2 with
  | Ok (_, response1), Ok (_, response2) =>
      anomalies response1 = anomalies response2 /\
      anomalies_found response1 = anomalies_found response2 /\
      confidence response1 = confidence response2 /\
      model_used response1 = model_used response2
  | Raise e1, Raise e2 => e1 = e2
  | _, _ => False
  end.
Proof.
  intros env1 env2 request1 request2.
  assert (Ht : document_text request1 = document_text request2).
  { unfold request1, request2. cbn [document_text]. reflexivity. }
  assert (Hc : patient_context request1 = patient_context request2).
  { unfold request1, request2. cbn [patient_context]. reflexivity. }
  split; [exact Ht |]. split; [exact Hc |].
  apply (analyze_document_findings_independent env1 env2 request1 request2 Ht Hc).
Defined.

(** The reported time does not tell a fast call from a slow one: a call
    that measured [e] milliseconds, [0 <= e < 100], and a call that
    measured [e + 100] report the same [processing_time_ms], and only the
    first one slept. *)
Theorem analyze_document_processing_time_collision (env1 env2 : environment)
    (request : AnalysisRequest) (effects1 effects2 : list effect)
    (response1 response2 : AnalysisResponse) :
  (0 <= elapsed_ms env1 < 100)%Z ->
  elapsed_ms env2 = (elapsed_ms env1 + 100)%Z ->
  analyze_document env1 request = Ok (effects1, response1) ->
  analyze_document env2 request = Ok (effects2, response2) ->
  processing_time_ms response1 = processing_time_ms response2 /\
  effects1 = [Sleep 0.1] /\ effects2 = [].
Proof.
  intros Hr He. unfold analyze_document.
  destruct (detect_anomalies _ _) as [out|e]; [| discriminate].
  rewrite !bind_Ok.
  destruct (elapsed_ms env1 <? 100)%Z eqn:E1; [| apply Z.ltb_ge in E1; lia].
  destruct (elapsed_ms env2 <? 100)%Z eqn:E2; [apply Z.ltb_lt in E2; lia |].
  intros [= <- <-] [= <- <-]. simpl. repeat split. lia.
Qed.

(** Forty milliseconds and a hundred and forty. *)
Lemma analyze_document_processing_time_collision_witness :
  let env1 := {| elapsed_ms := 40; uuid4 := "00000000-0000-4000-8000-000000000001";
                 utcnow_isoformat := "2024-01-01T00:00:00" |} in
  let env2 := {| elapsed_ms := 140; uuid4 := "00000000-0000-4000-8000-000000000002";
                 utcnow_isoformat := "2024-01-01T00:00:01" |} in
  let request := {| document_text := example_normal_document;
                    document_type := Some "medical"; patient_context := None |} in
  (0 <= elapsed_ms env1 < 100)%Z /\
  elapsed_ms env2 = (elapsed_ms env1 + 100)%Z /\
  exists effects1 response1 effects2 response2,
    analyze_document env1 request = Ok (effects1, response1) /\
    analyze_document env2 request = Ok (effects2, response2) /\
    processing_time_ms response1 = processing_time_ms response2 /\
    effects1 = [Sleep 0.1] /\ effects2 = [].
Proof.
  intros env1 env2 request.
  assert (Hr : (0 <= elapsed_ms env1 < 100)%Z) by (simpl; lia).
  assert (He : elapsed_ms env2 = (elapsed_ms env1 + 100)%Z) by reflexivity.
  assert (E1 : exists effects1 response1,
             analyze_document env1 request = Ok (effects1, response1)).
  { eexists _, _. vm_compute. reflexivity. }
  assert (E2 : exists effects2 response2,
             analyze_document env2 request = Ok (effects2, response2)).
  { eexists _, _. vm_compute. reflexivity. }
  destruct E1 as (effects1 & response1 & E1). destruct E2 as (effects2 & response2 & E2).
  split; [exact Hr |]. split; [exact He |].
  exists effects1, response1, effects2, response2.
  split; [exact E1 |]. split; [exact E2 |].
  apply (analyze_document_processing_time_collision env1 env2 request
           effects1 effects2 response1 response2 Hr He E1 E2).
Defined.

(** ** The examples against the engine *)

(** Every example of [get_examples] yields exactly the finding it is
    labelled with: one finding of the expected type, or none for the
    example that expects none. *)
Theorem get_examples_expected (example : Example.t) :
  example ∈ get_examples ->
  exists out,
    detect_anomalies (Example.document_text example) None = Ok out /\
    map (fun a => AnomalyType_name (type a)) out
    = match Example.expected_anomaly example with
      | Some name => [name]
      | None => []
      end.
Proof.
  unfold get_examples. intros H.
  repeat (apply elem_of_cons in H as [-> | H]);
    [| | | | inversion H]; eexists; (split; [vm_compute; reflexivity | reflexivity]).
Qed.

Lemma get_examples_expected_witness :
  exists example,
    Example.id example = "social_conflict" /\
    example ∈ get_examples /\
    exists out,
      detect_anomalies (Example.document_text example) None = Ok out /\
      map (fun a => AnomalyType_name (type a)) out
      = match Example.expected_anomaly example with
        | Some name => [name]
        | None => []
        end.
Proof.
  assert (H : exists example,
            Example.id example = "social_conflict" /\ example ∈ get_examples).
  { eexists. split; [| unfold get_examples; do 2 apply list_elem_of_further;
                       apply list_elem_of_here]. reflexivity. }
  destruct H as (example & Hid & Hin). exists example.
  split; [exact Hid |]. split; [exact Hin |].
  apply (get_examples_expected example Hin).
Defined.

(** ** The evaluator on any rule table *)

Lemma bind_Raise {A B} (e : exn) (f : A -> result B) : (Raise e ≫= f) = Raise e.
Proof. reflexivity. Qed.








(** ** Severity of the findings *)

(** No finding is of severity [INFO]: a finding is a [WARNING] exactly when
    it is a data conflict and [CRITICAL] otherwise. *)
Theorem detect_anomalies_severity (text : str) (context : option (gmap str pyval))
    (out : list Anomaly) (a : Anomaly) :
  detect_anomalies text context = Ok out ->
  a ∈ out ->
  severity a <> INFO /\
  (severity a = WARNING <-> type a = DATA_CONFLICT) /\
  (severity a = CRITICAL <-> type a <> DATA_CONFLICT).
Proof.
  intros ->%detect_anomalies_Ok_inv Ha%findings_templates.
  unfold DETECTION_PATTERNS in Ha. simpl in Ha.
  repeat (apply elem_of_cons in Ha as [-> | Ha]); [| | | | | inversion Ha];
    simpl; repeat split; intros; congruence.
Qed.

Lemma detect_anomalies_severity_witness :
  detect_anomalies example_social_conflict None
  = Ok [make_anomaly (anomaly rule_social_conflict)] /\
  make_anomaly (anomaly rule_social_conflict)
    ∈ [make_anomaly (anomaly rule_social_conflict)] /\
  severity (make_anomaly (anomaly rule_social_conflict)) <> INFO /\
  (severity (make_anomaly (anomaly rule_social_conflict)) = WARNING <->
   type (make_anomaly (anomaly rule_social_conflict)) = DATA_CONFLICT) /\
  (severity (make_anomaly (anomaly rule_social_conflict)) = CRITICAL <->
   type (make_anomaly (anomaly rule_social_conflict)) <> DATA_CONFLICT).
Proof.
  assert (E : detect_anomalies example_social_conflict None
              = Ok [make_anomaly (anomaly rule_social_conflict)]).
  { vm_compute. reflexivity. }
  assert (Hin : make_anomaly (anomaly rule_social_conflict)
                  ∈ [make_anomaly (anomaly rule_social_conflict)])
    by apply list_elem_of_here.
  split; [exact E |]. split; [exact Hin |].
  apply (detect_anomalies_severity example_social_conflict None _ _ E Hin).
Defined.

(** ** The value patterns need a decimal point *)

Section Decimal.
Import Unicode.

Lemma charset_within_has lo hi cs x :
  charset_within lo hi cs = true -> Re.charset_has cs x = true -> lo <= x <= hi.
Proof.
  destruct cs as [c| | |items]; simpl; try discriminate.
  - intros [H1 H2]%andb_true_iff ->%N.eqb_eq.
    apply N.leb_le in H1, H2. lia.
  - unfold in_ranges. rewrite forallb_forall, existsb_exists.
    intros Hall (e & Hin & [H1 H2]%andb_true_iff).
    apply Hall in Hin as [H3 H4]%andb_true_iff.
    apply N.leb_le in H1, H2, H3, H4. lia.
Qed.

Lemma matches_chr_seq cs r m :
  Re.matches (Re.Seq (Re.Chr cs) r) m ->
  exists x m', m = x :: m' /\ Re.charset_has cs x = true /\ Re.matches r m'.
Proof.
  intros (s1 & s2 & -> & H1 & H2)%ReFacts.matches_seq_inv.
  apply ReFacts.matches_chr_inv in H1 as (x & -> & Hx). exists x, s2. auto.
Qed.

Lemma starts_decimal_matches top r m :
  starts_decimal top r = true -> Re.matches r m -> has_decimal top m.
Proof.
  destruct r as [| | |r1 r2| |]; try discriminate.
  destruct r1 as [| |a| | |]; try discriminate.
  destruct r2 as [| | |r2 rest| |]; try discriminate.
  destruct r2 as [| |b| | |]; try discriminate.
  simpl. intros [[Ha Hb]%andb_true_iff Hc]%andb_true_iff Hm.
  apply matches_chr_seq in Hm as (d1 & m1 & -> & Hd1 & Hm).
  apply matches_chr_seq in Hm as (dot & m2 & -> & Hdot & Hm).
  apply (charset_within_has _ _ _ _ Ha) in Hd1.
  apply (charset_within_has _ _ _ _ Hb) in Hdot.
  assert (dot = 0x2E) as -> by lia.
  assert (Hd2 : exists d2 m3, m2 = d2 :: m3 /\ 0x30 <= d2 <= 0x39).
  { destruct rest as [| |c|r3 r4| |]; try discriminate.
    - apply ReFacts.matches_chr_inv in Hm as (d2 & -> & Hd2).
      exists d2, []. eauto using charset_within_has.
    - destruct r3 as [| |c| | |]; try discriminate.
      apply matches_chr_seq in Hm as (d2 & m3 & -> & Hd2 & _).
      exists d2, m3. eauto using charset_within_has. }
  destruct Hd2 as (d2 & m3 & -> & Hd2).
  exists [], d1, d2, m3. auto.
Qed.

Lemma has_decimal_app top (pre s post : str) :
  has_decimal top s -> has_decimal top (pre ++ s ++ post).
Proof.
  intros (p & d1 & d2 & q & -> & H1 & H2).
  exists (pre ++ p), d1, d2, (q ++ post). rewrite <- !app_assoc. auto.
Qed.

Lemma requires_decimal_matches top r m :
  requires_decimal top r = true -> Re.matches r m -> has_decimal top m.
Proof.
  revert m. induction r as [| |cs|r1 IH1 r2 IH2|r1 IH1 r2 IH2|r IH]; intros m Hr Hm;
    try (simpl in Hr; discriminate).
  - cbn [requires_decimal] in Hr. apply orb_true_iff in Hr as [Hs|Hr];
      [eapply starts_decimal_matches; eassumption |].
    apply ReFacts.matches_seq_inv in Hm as (s1 & s2 & -> & H1 & H2).
    apply orb_true_iff in Hr as [Hr|Hr].
    + apply (has_decimal_app top [] s1 s2). auto.
    + apply (has_decimal_app top s1 s2 []) in IH2; auto.
      rewrite app_nil_r in IH2. exact IH2.
  - simpl in Hr. apply andb_true_iff in Hr as [Hr1 Hr2].
    apply ReFacts.matches_alt_inv in Hm as [Hm|Hm]; auto.
Qed.

Lemma requires_decimal_found top r s :
  requires_decimal top r = true -> Re.found r s -> has_decimal top s.
Proof.
  intros Hr (pre & m & post & -> & Hm).
  apply has_decimal_app. eapply requires_decimal_matches; eassumption.
Qed.

(** Whatever [lower] writes below [a] it copied from its input. *)
Lemma lower_special_above :
  forallb (fun e => forallb (fun c => 0x61 <=? c) (snd e)
                    && negb (bool_decide (snd e = []))) lower_special = true.
Proof. vm_compute. reflexivity. Qed.

Lemma lower_table_above :
  forallb (fun e => let '(_, _, _, target) := e in 0x61 <=? target) lower_table = true.
Proof. vm_compute. reflexivity. Qed.

Lemma to_lower_full_small c0 :
  to_lower_full c0 <> [] /\
  forall x, x ∈ to_lower_full c0 -> x < 0x61 -> to_lower_full c0 = [c0] /\ x = c0.
Proof.
  unfold to_lower_full, to_full, assoc, map_run.
  destruct (find (fun e => fst e =? c0) lower_special) as [e|] eqn:Es.
  - apply find_some in Es as [Hin _].
    pose proof lower_special_above as H. rewrite forallb_forall in H.
    apply H in Hin. apply andb_true_iff in Hin as [Hall Hne].
    apply negb_true_iff, bool_decide_eq_false in Hne. split; [exact Hne |].
    intros x Hx Hlt. rewrite forallb_forall in Hall.
    apply list_elem_of_In, Hall, N.leb_le in Hx. lia.
  - destruct (find (in_run c0) lower_table) as [[[[lo hi] step] target]|] eqn:Er.
    + split; [discriminate |]. intros x ->%list_elem_of_singleton Hlt.
      apply find_some in Er as [Hin _].
      pose proof lower_table_above as H. rewrite forallb_forall in H.
      apply H, N.leb_le in Hin. lia.
    + split; [discriminate |]. intros x ->%list_elem_of_singleton _. auto.
Qed.

Lemma lower_piece_small prev c0 rest :
  lower_piece prev c0 rest <> [] /\
  forall x, x ∈ lower_piece prev c0 rest -> x < 0x61 ->
            lower_piece prev c0 rest = [c0] /\ x = c0.
Proof.
  unfold lower_piece. destruct (c0 =? CAPITAL_SIGMA).
  - split; [discriminate |]. intros x ->%list_elem_of_singleton Hlt.
    destruct (prev && _); vm_compute in Hlt; discriminate.
  - apply to_lower_full_small.
Qed.

Lemma lower_from_cons prev c (s : str) :
  lower_from prev (c :: s) =
  lower_piece prev c s ++ lower_from (if is_case_ignorable c then prev else is_cased c) s.
Proof. reflexivity. Qed.

(** A leading code point below [a] of a lowercased text leads the text. *)
Lemma lower_from_head prev (s : str) x rest :
  lower_from prev s = x :: rest -> x < 0x61 ->
  exists s' prev', s = x :: s' /\ lower_from prev' s' = rest.
Proof.
  destruct s as [|c s]; [discriminate |]. rewrite lower_from_cons.
  destruct (lower_piece_small prev c s) as [Hne Hsmall].
  destruct (lower_piece prev c s) as [|y piece] eqn:Ep; [congruence |].
  simpl. intros [= -> Hrest] Hlt.
  destruct (Hsmall x (list_elem_of_here _ _) Hlt) as [[= -> ->] _].
  simpl in Hrest. eauto.
Qed.

Lemma lower_from_slice prev (s pre : str) d1 d2 d3 post :
  lower_from prev s = pre ++ [d1; d2; d3] ++ post ->
  d1 < 0x61 -> d2 < 0x61 -> d3 < 0x61 ->
  exists pre' post', s = pre' ++ [d1; d2; d3] ++ post'.
Proof.
  intros E H1 H2 H3. revert prev pre E.
  induction s as [|c s IH]; intros prev pre E.
  - simpl in E. destruct pre; discriminate.
  - rewrite lower_from_cons in E.
    destruct (lower_piece_small prev c s) as [_ Hsmall].
    apply app_eq_app in E as [l [[Ep El]|[Ep El]]].
    + destruct l as [|y l].
      * rewrite app_nil_r in Ep. simpl in El. symmetry in El.
        apply (IH _ []) in El as (pre' & post' & ->).
        exists (c :: pre'), post'. reflexivity.
      * simpl in El. injection El as <- El.
        assert (Hin : d1 ∈ lower_piece prev c s).
        { rewrite Ep. apply elem_of_app. right. apply list_elem_of_here. }
        destruct (Hsmall d1 Hin H1) as [Hp ->]. rewrite Hp in Ep.
        destruct pre as [|z pre]; [| destruct pre; discriminate].
        simpl in Ep. injection Ep as <-. simpl in El. symmetry in El.
        apply lower_from_head in El as (s1 & p1 & -> & El); [| exact H2].
        apply lower_from_head in El as (s2 & p2 & -> & El); [| exact H3].
        exists [], s2. reflexivity.
    + apply IH in El as (pre' & post' & ->).
      exists (c :: pre'), post'. reflexivity.
Qed.

Lemma has_decimal_lower top text :
  top <= 0x39 -> has_decimal top (lower text) -> has_decimal top text.
Proof.
  intros Htop (pre & d1 & d2 & post & E & Hd1 & Hd2).
  apply lower_from_slice in E as (pre' & post' & ->); try lia.
  exists pre', d1, d2, post'. auto.
Qed.

End Decimal.

Lemma any_found_requires_decimal top ps s :
  forallb (fun p => requires_decimal top (re p)) ps = true ->
  any_found ps s -> has_decimal top s.
Proof.
  rewrite forallb_forall. intros Hall (p & r & Hin & Hc & Hf).
  apply list_elem_of_In, Hall in Hin. unfold re in Hin. rewrite Hc in Hin.
  eapply requires_decimal_found; eassumption.
Qed.

Lemma any_found_app ps1 ps2 s :
  any_found (ps1 ++ ps2) s -> any_found ps1 s \/ any_found ps2 s.
Proof.
  intros (p & r & Hin & Hc & Hf). apply elem_of_app in Hin as [Hin|Hin];
    [left | right]; exists p, r; auto.
Qed.

(** The rules on glycemia values read decimal points only.  The rule on
    discharge fires only on a text that holds a digit from 0 to 3, a full
    stop and a digit in a row; the rule on hypoglycemia fires only on such
    a text with a leading digit from 0 to 2, or on one whose lowercase form
    holds [hipoglikemij].  A value written with a decimal comma counts for
    neither. *)
Theorem detect_anomalies_decimal_point_needed (text : str)
    (context : option (gmap str pyval)) (out : list Anomaly) :
  detect_anomalies text context = Ok out ->
  (make_anomaly (anomaly rule_discharge_glycemia) ∈ out -> has_decimal 0x33 text) /\
  (make_anomaly (anomaly rule_hypoglycemia) ∈ out ->
   has_decimal 0x32 text \/ any_found ["hipoglikemij"] (lower text)).
Proof.
  intros ->%detect_anomalies_Ok_inv. split; intros H.
  - assert (Hin : rule_discharge_glycemia ∈ DETECTION_PATTERNS).
    { unfold DETECTION_PATTERNS. do 4 apply list_elem_of_further. apply list_elem_of_here. }
    apply (elem_of_findings_fires _ text Hin) in H as [_ Hc].
    assert (Hd : forallb (fun p => requires_decimal 0x33 (re p))
                         (conflict_group rule_discharge_glycemia) = true)
      by (vm_compute; reflexivity).
    apply has_decimal_lower; [vm_compute; discriminate |].
    exact (any_found_requires_decimal _ _ _ Hd Hc).
  - assert (Hin : rule_hypoglycemia ∈ DETECTION_PATTERNS).
    { unfold DETECTION_PATTERNS. apply list_elem_of_further, list_elem_of_here. }
    apply (elem_of_findings_fires _ text Hin) in H as [Hb _].
    change (patterns rule_hypoglycemia)
      with ([ "glikemij.*[0-2]\.[0-9]"; "glukoz.*[0-2]\.[0-9]"; "[0-2]\.[0-9]\s*mmol" ]
            ++ [ "hipoglikemij" ]) in Hb.
    apply any_found_app in Hb as [Hb|Hb]; [left | right; exact Hb].
    assert (Hd : forallb (fun p => requires_decimal 0x32 (re p))
                         [ "glikemij.*[0-2]\.[0-9]"; "glukoz.*[0-2]\.[0-9]";
                           "[0-2]\.[0-9]\s*mmol" ] = true)
      by (vm_compute; reflexivity).
    apply has_decimal_lower; [vm_compute; discriminate |].
    exact (any_found_requires_decimal _ _ _ Hd Hb).
Qed.

(** A glycemia of 0.7 written with a point. *)
Lemma detect_anomalies_decimal_point_needed_witness :
  detect_anomalies (utf8 "glikemijom 0.7 mmol/L, u skladu sa dobrom praksom") None
  = Ok [make_anomaly (anomaly rule_hypoglycemia)] /\
  (make_anomaly (anomaly rule_discharge_glycemia)
     ∈ [make_anomaly (anomaly rule_hypoglycemia)] ->
   has_decimal 0x33 (utf8 "glikemijom 0.7 mmol/L, u skladu sa dobrom praksom")) /\
  (make_anomaly (anomaly rule_hypoglycemia)
     ∈ [make_anomaly (anomaly rule_hypoglycemia)] ->
   has_decimal 0x32 (utf8 "glikemijom 0.7 mmol/L, u skladu sa dobrom praksom") \/
   any_found ["hipoglikemij"]
     (lower (utf8 "glikemijom 0.7 mmol/L, u skladu sa dobrom praksom"))).
Proof.
  assert (E : detect_anomalies
                (utf8 "glikemijom 0.7 mmol/L, u skladu sa dobrom praksom") None
              = Ok [make_anomaly (anomaly rule_hypoglycemia)]).
  { vm_compute. reflexivity. }
  split; [exact E |].
  apply (detect_anomalies_decimal_point_needed _ None _ E).
Defined.

(** ** Base patterns match within a line *)

Lemma newline_free_matches r m :
  newline_free r = true -> Re.matches r m -> NEWLINE ∉ m.
Proof.
  intros Hr Hm.
  induction Hm as [|cs c Hc|r1 r2 s1 s2 _ IH1 _ IH2|r1 r2 s _ IH|r1 r2 s _ IH
                  |r|r s1 s2 _ IH1 _ IH2]; simpl in Hr.
  - apply not_elem_of_nil.
  - intros H%list_elem_of_singleton. rewrite <- H in Hc. rewrite Hc in Hr. discriminate.
  - apply andb_true_iff in Hr as [H1 H2]. rewrite elem_of_app.
    intros [H|H]; [apply (IH1 H1 H) | apply (IH2 H2 H)].
  - apply andb_true_iff in Hr as [H1 H2]. auto.
  - apply andb_true_iff in Hr as [H1 H2]. auto.
  - apply not_elem_of_nil.
  - rewrite elem_of_app. intros [H|H]; [apply (IH1 Hr H) | apply (IH2 Hr H)].
Qed.

(** A slice without [x] of a list cut at [x] lies on one side of the cut. *)
Lemma slice_one_side (x : N) (pre m post a b : str) :
  pre ++ m ++ post = a ++ x :: b -> x ∉ m ->
  (exists post', a = pre ++ m ++ post') \/ (exists pre', b = pre' ++ m ++ post).
Proof.
  intros E Hx. apply app_eq_app in E as [l [[Ep El]|[Ea El]]].
  - destruct l as [|y l]; simpl in El.
    + destruct m as [|z m]; simpl in El.
      * left. exists []. rewrite app_nil_r in Ep. subst pre. rewrite app_nil_r.
        reflexivity.
      * injection El as -> _. exfalso. apply Hx, list_elem_of_here.
    + right. injection El as _ ->. exists l. reflexivity.
  - apply app_eq_app in El as [l2 [[Em El2]|[El2 Epost]]].
    + destruct l2 as [|y l2]; simpl in El2.
      * left. exists []. rewrite app_nil_r in Em. subst. rewrite app_nil_r. reflexivity.
      * injection El2 as <- _. exfalso. apply Hx. rewrite Em.
        apply elem_of_app. right. apply list_elem_of_here.
    + left. exists l2. subst a l. reflexivity.
Qed.

Lemma found_one_line r (a b : str) :
  newline_free r = true ->
  Re.found r (a ++ NEWLINE :: b) -> Re.found r a \/ Re.found r b.
Proof.
  intros Hr (pre & m & post & E & Hm). symmetry in E.
  apply slice_one_side in E as [[post' ->]|[pre' ->]];
    [left; exists pre, m, post' | right; exists pre', m, post | ]; auto.
  eapply newline_free_matches; eassumption.
Qed.

Lemma lower_two_lines (t1 t2 : str) :
  Forall2 same_sigma (lower (t1 ++ [NEWLINE] ++ t2)) (lower t1 ++ NEWLINE :: lower t2).
Proof.
  apply Forall2_same_sigma_sym.
  assert (H : Forall2 same_sigma (lower t1 ++ NEWLINE :: lower t2)
                                 (lower t1 ++ lower ([NEWLINE] ++ t2))).
  { apply Forall2_app; [apply Forall2_same_sigma_refl |].
    apply (lower_app [NEWLINE] t2). }
  pose proof (lower_app t1 ([NEWLINE] ++ t2)) as H'.
  clear -H H'. revert H'. generalize (lower (t1 ++ [NEWLINE] ++ t2)).
  revert H. generalize (lower t1 ++ lower ([NEWLINE] ++ t2)).
  generalize (lower t1 ++ NEWLINE :: lower t2).
  intros l1 l2 H. induction H as [|x y l1 l2 Hxy _ IH]; intros l3 H3.
  - apply Forall2_nil_inv_l in H3 as ->. constructor.
  - apply Forall2_cons_inv_l in H3 as (z & l3' & Hyz & H3 & ->).
    constructor; [| apply IH; exact H3].
    unfold same_sigma in *. intuition congruence.
Qed.

Lemma table_base_newline_free :
  forallb (fun ps => forallb (fun p => newline_free (re p) && sigma_blind (re p))
                             (patterns ps))
          [ rule_blind_patient; rule_care_not_provided; rule_social_conflict;
            rule_discharge_glycemia ]
  = true.
Proof. vm_compute. reflexivity. Qed.

Lemma any_found_one_line ps (t1 t2 : str) :
  forallb (fun p => newline_free (re p) && sigma_blind (re p)) ps = true ->
  any_found ps (lower (t1 ++ [NEWLINE] ++ t2)) ->
  any_found ps (lower t1) \/ any_found ps (lower t2).
Proof.
  rewrite forallb_forall. intros Hall (p & r & Hin & Hc & Hf).
  pose proof Hin as Hp. apply list_elem_of_In, Hall in Hp.
  unfold re in Hp. rewrite Hc in Hp. simpl in Hp.
  apply andb_true_iff in Hp as [Hn Hs].
  apply (found_same_sigma r _ (lower t1 ++ NEWLINE :: lower t2) Hs) in Hf;
    [| apply lower_two_lines].
  apply (found_one_line r _ _ Hn) in Hf as [Hf|Hf]; [left | right]; exists p, r; auto.
Qed.

(** A base pattern never matches across a line break.  For every rule but
    the one on hypoglycemia (whose third base pattern reads white space),
    when the rule fires on a text cut by a line feed, one of its base
    patterns is found in the part before the line feed alone or in the part
    after it alone. *)
Theorem detect_anomalies_base_one_line (ps : pattern_set) (text1 text2 : str)
    (context : option (gmap str pyval)) (out : list Anomaly) :
  ps ∈ DETECTION_PATTERNS ->
  ps <> rule_hypoglycemia ->
  detect_anomalies (text1 ++ [NEWLINE] ++ text2) context = Ok out ->
  make_anomaly (anomaly ps) ∈ out ->
  any_search (patterns ps) (lower text1) = Ok true \/
  any_search (patterns ps) (lower text2) = Ok true.
Proof.
  intros Hin Hne ->%detect_anomalies_Ok_inv H.
  apply (elem_of_findings_fires ps _ Hin) in H as [Hb _].
  pose proof (rule_ok_of_table _ _ table_ok_DETECTION_PATTERNS Hin) as Hok.
  apply andb_true_iff in Hok as [Hcb _].
  assert (Hnl : forallb (fun p => newline_free (re p) && sigma_blind (re p))
                        (patterns ps) = true).
  { pose proof table_base_newline_free as T. rewrite forallb_forall in T.
    apply T, list_elem_of_In. unfold DETECTION_PATTERNS in Hin.
    repeat (apply elem_of_cons in Hin as [-> | Hin]);
      [| contradiction | | | | inversion Hin].
    - apply list_elem_of_here.
    - apply list_elem_of_further, list_elem_of_here.
    - do 2 apply list_elem_of_further. apply list_elem_of_here.
    - do 3 apply list_elem_of_further. apply list_elem_of_here. }
  rewrite !(any_search_ok _ _ Hcb).
  apply (any_found_one_line _ _ _ Hnl) in Hb as [Hb|Hb]; [left | right]; f_equal;
    apply (existsb_search_any_found _ _ Hcb); exact Hb.
Qed.

(** The example of the blind patient: the diagnosis is on one of the lines
    before the instructions. *)
Lemma detect_anomalies_base_one_line_witness :
  let text1 := utf8 "Dijagnoza: Retinopathia diabetica" in
  let text2 := utf8 "Uputstvo: meriti glikemiju 4x dnevno" in
  rule_blind_patient ∈ DETECTION_PATTERNS /\
  rule_blind_patient <> rule_hypoglycemia /\
  detect_anomalies (text1 ++ [NEWLINE] ++ text2) None
  = Ok [make_anomaly (anomaly rule_blind_patient)] /\
  (any_search (patterns rule_blind_patient) (lower text1) = Ok true \/
   any_search (patterns rule_blind_patient) (lower text2) = Ok true).
Proof.
  intros text1 text2.
  assert (Hin : rule_blind_patient ∈ DETECTION_PATTERNS).
  { unfold DETECTION_PATTERNS. apply list_elem_of_here. }
  assert (Hne : rule_blind_patient <> rule_hypoglycemia) by discriminate.
  assert (E : detect_anomalies (text1 ++ [NEWLINE] ++ text2) None
              = Ok [make_anomaly (anomaly rule_blind_patient)]).
  { vm_compute. reflexivity. }
  split; [exact Hin |]. split; [exact Hne |]. split; [exact E |].
  apply (detect_anomalies_base_one_line rule_blind_patient text1 text2 None _
           Hin Hne E (list_elem_of_here _ _)).
Defined.

(** ** When a call fails *)

(** [analyze_document] fails exactly when the context is a mapping whose
    ["social_status"] holds a value without [.get], with [AttributeError],
    whatever the document and the clock; it then builds no response and
    does not sleep.  In every other case it returns a response. *)
Theorem analyze_document_raises_iff (env : environment) (request : AnalysisRequest) :
  (forall e,
     analyze_document env request = Raise e <->
     e = AttributeError /\
     exists ctx v,
       patient_context request = Some ctx /\
       ctx !! utf8 "social_status" = Some v /\ has_get v = false) /\
  (context_ok (patient_context request) ->
   exists effects response, analyze_document env request = Ok (effects, response)).
Proof.
  unfold analyze_document. rewrite detect_anomalies_closed. split.
  - intros e. destruct (patient_context request) as [ctx|].
    + rewrite read_context_Some.
      destruct (ctx !! utf8 "social_status") as [v|] eqn:Ev.
      * destruct (has_get v) eqn:Eg.
        -- rewrite !bind_Ok. destruct (elapsed_ms env <? 100)%Z; split;
             try discriminate; intros (_ & ctx' & v' & [= <-] & Hv & Hg); congruence.
        -- simpl. split.
           ++ intros [= <-]. split; [reflexivity |]. exists ctx, v. auto.
           ++ intros [-> _]. reflexivity.
      * rewrite !bind_Ok. destruct (elapsed_ms env <? 100)%Z; split;
          try discriminate; intros (_ & ctx' & v' & [= <-] & Hv & _); congruence.
    + simpl. destruct (elapsed_ms env <? 100)%Z; split; try discriminate;
        intros (_ & ctx & v & H & _); discriminate.
  - intros Hok. rewrite (read_context_ok _ _ Hok), !bind_Ok.
    destruct (elapsed_ms env <? 100)%Z; eauto.
Qed.

(** ** Documents without letters *)

Section NoLetters.
Import Unicode.

Lemma requires_above_matches lo r m :
  requires_above lo r = true -> Re.matches r m -> exists c, c ∈ m /\ lo <= c.
Proof.
  intros Hr Hm.
  induction Hm as [|cs x Hx|r1 r2 s1 s2 _ IH1 _ IH2|r1 r2 s _ IH|r1 r2 s _ IH
                  |r|r s1 s2 _ _ _ _]; simpl in Hr; try discriminate.
  - exists x. split; [apply list_elem_of_here |].
    destruct cs as [c| | |items]; try discriminate; simpl in Hx.
    + apply N.eqb_eq in Hx. apply N.leb_le in Hr. lia.
    + unfold in_ranges in Hx. rewrite forallb_forall in Hr.
      apply existsb_exists in Hx as (e & Hin & [H1 _]%andb_true_iff).
      apply Hr, N.leb_le in Hin. apply N.leb_le in H1. lia.
  - apply orb_true_iff in Hr as [Hr|Hr].
    + destruct (IH1 Hr) as (c & Hc & Hlo). exists c. rewrite elem_of_app. auto.
    + destruct (IH2 Hr) as (c & Hc & Hlo). exists c. rewrite elem_of_app. auto.
  - apply andb_true_iff in Hr as [Hr _]. auto.
  - apply andb_true_iff in Hr as [_ Hr]. auto.
Qed.

Lemma lower_tables_from_A :
  forallb (fun e => 0x41 <=? fst e) lower_special
  && forallb (fun e => let '(lo, _, _, _) := e in 0x41 <=? lo) lower_table = true.
Proof. vm_compute. reflexivity. Qed.

Lemma to_lower_full_below_A c : c < 0x41 -> to_lower_full c = [c].
Proof.
  intros Hc. pose proof lower_tables_from_A as [Hs Ht]%andb_true_iff.
  rewrite forallb_forall in Hs, Ht.
  unfold to_lower_full, to_full, assoc, map_run.
  destruct (find (fun e => fst e =? c) lower_special) as [e|] eqn:Es.
  - apply find_some in Es as [Hin He]. apply Hs, N.leb_le in Hin.
    apply N.eqb_eq in He. lia.
  - destruct (find (in_run c) lower_table) as [[[[lo hi] step] target]|] eqn:Er;
      [| reflexivity].
    apply find_some in Er as [Hin Hrun]. apply Ht, N.leb_le in Hin.
    unfold in_run in Hrun. apply andb_true_iff in Hrun as [Hrun _].
    apply andb_true_iff in Hrun as [H1 _]. apply N.leb_le in H1. lia.
Qed.

(** Digits, blanks and ASCII punctuation below [A] are left as they are. *)
Lemma lower_from_below_A prev (s : str) :
  Forall (fun c => c < 0x41) s -> lower_from prev s = s.
Proof.
  intros H. revert prev. induction H as [|c s Hc _ IH]; intros prev; simpl;
    [reflexivity |].
  assert (E : (c =? CAPITAL_SIGMA) = false).
  { apply N.eqb_neq. unfold CAPITAL_SIGMA. lia. }
  rewrite E, (to_lower_full_below_A c Hc), IH. reflexivity.
Qed.

End NoLetters.

Lemma table_base_requires_letter :
  forallb (fun ps => forallb (fun p => requires_above 0x41 (re p)) (patterns ps))
          DETECTION_PATTERNS = true.
Proof. vm_compute. reflexivity. Qed.

Lemma search_no_letters p (s : str) :
  requires_above 0x41 (re p) = true -> Forall (fun c => c < 0x41) s ->
  Re.search (re p) s = false.
Proof.
  intros Hr Hs. destruct (Re.search (re p) s) eqn:E; [| reflexivity].
  apply ReFacts.search_spec in E as (pre & m & post & -> & Hm).
  apply (requires_above_matches _ _ _ Hr) in Hm as (c & Hc & Hlo).
  rewrite Forall_forall in Hs. specialize (Hs c).
  rewrite !elem_of_app in Hs. specialize (Hs (or_intror (or_introl Hc))). lia.
Qed.

Lemma findings_no_letters table text :
  forallb (fun ps => forallb (fun p => requires_above 0x41 (re p)) (patterns ps))
          table = true ->
  Forall (fun c => c < 0x41) text -> findings table text = [].
Proof.
  intros Ht Hs. unfold findings, lower. rewrite (lower_from_below_A _ _ Hs).
  induction table as [|ps table IH]; [reflexivity |]. simpl in Ht |- *.
  apply andb_true_iff in Ht as [Hps Ht]. rewrite (IH Ht), app_nil_r.
  unfold rule_findings.
  assert (E : existsb (fun p => Re.search (re p) text) (patterns ps) = false).
  { clear -Hps Hs. induction (patterns ps) as [|p l IHl]; [reflexivity |]. simpl in *.
    apply andb_true_iff in Hps as [Hp Hl].
    rewrite (search_no_letters p text Hp Hs), (IHl Hl). reflexivity. }
  rewrite E. reflexivity.
Qed.

(** A document without letters yields no finding: on a text of code points
    below [A] only (digits, blanks, ASCII punctuation) every base pattern
    fails, under every context of the request schema. *)
Theorem detect_anomalies_no_letters (text : str) (context : option (gmap str pyval)) :
  Forall (fun c => c < 0x41) text ->
  context_ok context ->
  detect_anomalies text context = Ok [].
Proof.
  intros Hs Hc. rewrite (detect_anomalies_context_ok _ _ Hc).
  rewrite (findings_no_letters _ _ table_base_requires_letter Hs). reflexivity.
Qed.

(** Values alone, with points and with commas. *)
Lemma detect_anomalies_no_letters_witness :
  Forall (fun c => c < 0x41) (utf8 "0.7 / 0,7 (3.5 - 13,0) 2024-01-01") /\
  context_ok None /\
  detect_anomalies (utf8 "0.7 / 0,7 (3.5 - 13,0) 2024-01-01") None = Ok [].
Proof.
  assert (Hs : Forall (fun c => c < 0x41) (utf8 "0.7 / 0,7 (3.5 - 13,0) 2024-01-01")).
  { apply Forall_forall. intros c Hc. apply N.ltb_lt. revert c Hc.
    apply Forall_forall. apply forallb_Forall_true. vm_compute. reflexivity. }
  split; [exact Hs |]. split; [exact I |].
  apply (detect_anomalies_no_letters _ None Hs I).
Defined.
